(** * FastAPI-labs: a shallow embedding of the tutorial snapshots

    The repository is a sequence of FastAPI tutorial snapshots
    ([src/snapshots/NN_main.py]).  Each snapshot that the properties below
    talk about is embedded in a module of its own ([Snap06], [Snap09],
    [Snap10], [Snap12], [Snap14], [Snap15]); handlers keep their Python
    names.  Module-level dictionaries used as databases are threaded
    explicitly as [gmap]s; the file system, the MIME table and the parsers
    of the validation library are taken as section variables.

    A [str] is represented by its UTF-8 encoding.  The case mappings of
    the Unicode database ([lower], [title]) and the addition of floating
    point numbers are parameters; a [float] is the rational it stands
    for. *)

From Stdlib Require Import Ascii ZArith QArith Lia Bool.
From stdpp Require Import gmap strings list pretty.

Local Open Scope Z_scope.

(** * Python built-ins used by the handlers *)

Module Py.

(** ** [str] methods *)

(** [s.lower()] and [s.title()] follow the Unicode character database,
    which is not part of the program: they are parameters. *)
Class Unicode := {
  lower : string -> string;
  title : string -> string
}.

(** A byte that continues a multi-byte sequence of UTF-8 (10xxxxxx). *)
Definition is_continuation (c : ascii) : bool :=
  let n := Ascii.nat_of_ascii c in (128 <=? n)%nat && (n <? 192)%nat.

(** [len(s)]: the number of code points, that is of the bytes that do not
    continue a sequence. *)
Fixpoint len (s : string) : nat :=
  match s with
  | EmptyString => 0%nat
  | String c s' => ((if is_continuation c then 0 else 1) + len s')%nat
  end.

(** [s.startswith(p)] *)
Fixpoint startswith (s p : string) {struct p} : bool :=
  match p, s with
  | EmptyString, _ => true
  | String a p', String b s' => bool_decide (a = b) && startswith s' p'
  | String _ _, EmptyString => false
  end.

(** [s.endswith(c)] for a one-character suffix. *)
Fixpoint endswith_char (s : string) (c : ascii) : bool :=
  match s with
  | EmptyString => false
  | String a EmptyString => bool_decide (a = c)
  | String _ s' => endswith_char s' c
  end.

(** [sub in s] *)
Fixpoint contains (sub s : string) : bool :=
  startswith s sub ||
  match s with
  | EmptyString => false
  | String _ s' => contains sub s'
  end.

(** [s.split(c)] *)
Fixpoint split (c : ascii) (s : string) : list string :=
  match s with
  | EmptyString => [EmptyString]
  | String a s' =>
      if bool_decide (a = c) then EmptyString :: split c s'
      else match split c s' with
           | w :: ws => String a w :: ws
           | [] => [String a EmptyString]
           end
  end.

(** [sep.join(l)] *)
Fixpoint join_str (sep : string) (l : list string) : string :=
  match l with
  | [] => EmptyString
  | [w] => w
  | w :: ws => w +:+ sep +:+ join_str sep ws
  end.

(** [x or y] on strings and on optional strings: the first operand when
    it is truthy (neither [None] nor empty). *)
Definition or_default (x : option string) (y : string) : string :=
  match x with
  | Some (String a s) => String a s
  | _ => y
  end.

End Py.

(** * [os.path] on a POSIX platform *)

Module posixpath.

Definition sep : ascii := "/"%char.

Fixpoint has_sep (p : string) : bool :=
  match p with
  | EmptyString => false
  | String c p' => bool_decide (c = sep) || has_sep p'
  end.

(** [basename(p)] is [p[p.rfind('/') + 1:]]: what follows the last
    separator, the whole of [p] when there is none. *)
Fixpoint basename (p : string) : string :=
  match p with
  | EmptyString => EmptyString
  | String c p' =>
      if has_sep p' then basename p'
      else if bool_decide (c = sep) then p'
      else String c p'
  end.

Definition isabs (p : string) : bool := Py.startswith p "/".

(** [join(a, b)] with two arguments. *)
Definition join (a b : string) : string :=
  if Py.startswith b "/" then b
  else if bool_decide (a = EmptyString) || Py.endswith_char a sep then a +:+ b
  else a +:+ "/" +:+ b.

(** The loop of [normpath] over the components; [new_comps] is kept in
    reverse, so that its head is [new_comps[-1]]. *)
Fixpoint normpath_comps (initial_slashes : nat) (comps new_comps : list string)
  : list string :=
  match comps with
  | [] => rev new_comps
  | comp :: comps' =>
      if bool_decide (comp = "") || bool_decide (comp = ".")
      then normpath_comps initial_slashes comps' new_comps
      else if negb (bool_decide (comp = ".."))
              || (bool_decide (initial_slashes = 0%nat)
                  && bool_decide (new_comps = []))
              || match new_comps with
                 | last :: _ => bool_decide (last = "..")
                 | [] => false
                 end
      then normpath_comps initial_slashes comps' (comp :: new_comps)
      else normpath_comps initial_slashes comps' (tail new_comps)
  end.

Definition normpath (path : string) : string :=
  if bool_decide (path = "") then "."
  else
    let initial_slashes : nat :=
      if Py.startswith path "/" then
        if Py.startswith path "//" && negb (Py.startswith path "///")
        then 2%nat else 1%nat
      else 0%nat in
    let comps := normpath_comps initial_slashes (Py.split sep path) [] in
    let path' := Py.join_str "/" comps in
    let path'' :=
      match initial_slashes with
      | 0%nat => path'
      | 1%nat => "/" +:+ path'
      | _ => "//" +:+ path'
      end in
    if bool_decide (path'' = "") then "." else path''.

(** [abspath(path)]; [cwd] is what [os.getcwd()] returns. *)
Definition abspath (cwd path : string) : string :=
  normpath (if isabs path then path else join cwd path).

End posixpath.

(** * Python values *)

Module Value.

(** What a JSON body decodes to, plus objects with named attributes
    (model instances, exception objects).  A [dict] is an association
    list in insertion order; its keys are pairwise distinct and [get]
    reads the first binding.  A [float] is a rational number. *)
#[warnings="-register-all"]
Inductive PyVal :=
| VNone
| VBool (b : bool)
| VInt (z : Z)
| VFloat (q : Q)
| VStr (s : string)
| VList (l : list PyVal)
| VDict (d : list (string * PyVal))
| VObj (cls : string) (attrs : list (string * PyVal)).

Abbreviation Dict := (list (string * PyVal)).

(** [d.get(k)] / [k in d] / [getattr]. *)
Fixpoint get (d : Dict) (k : string) : option PyVal :=
  match d with
  | [] => None
  | (k', v) :: d' => if bool_decide (k' = k) then Some v else get d' k
  end.

(** [d[k] = v]: replaces the binding in place, or appends a new one. *)
Fixpoint set (d : Dict) (k : string) (v : PyVal) : Dict :=
  match d with
  | [] => [(k, v)]
  | (k', v') :: d' =>
      if bool_decide (k' = k) then (k, v) :: d' else (k', v') :: set d' k v
  end.

(** [{**d1, **d2}] *)
Definition merge (d1 d2 : Dict) : Dict :=
  fold_left (fun acc kv => set acc kv.1 kv.2) d2 d1.

Definition keys (d : Dict) : list string := d.*1.

(** The number a value stands for in a comparison ([True == 1 == 1.0]). *)
Definition number (v : PyVal) : option Q :=
  match v with
  | VBool b => Some (if b then 1%Q else 0%Q)
  | VInt z => Some (inject_Z z)
  | VFloat q => Some q
  | _ => None
  end.

(** [a == b] *)
Fixpoint eqb (a b : PyVal) {struct a} : bool :=
  match a, b with
  | VNone, VNone => true
  | VStr s1, VStr s2 => bool_decide (s1 = s2)
  | VList l1, VList l2 =>
      (fix all2 (l1 l2 : list PyVal) {struct l1} : bool :=
         match l1, l2 with
         | [], [] => true
         | x :: l1', y :: l2' => eqb x y && all2 l1' l2'
         | _, _ => false
         end) l1 l2
  | VDict d1, VDict d2 =>
      bool_decide (length d1 = length d2) &&
      (fix all (d : Dict) {struct d} : bool :=
         match d with
         | [] => true
         | (k, v) :: d' =>
             match get d2 k with
             | Some v' => eqb v v'
             | None => false
             end && all d'
         end) d1
  | VObj c1 a1, VObj c2 a2 =>
      bool_decide (c1 = c2) &&
      bool_decide (length a1 = length a2) &&
      (fix all (d : Dict) {struct d} : bool :=
         match d with
         | [] => true
         | (k, v) :: d' =>
             match get a2 k with
             | Some v' => eqb v v'
             | None => false
             end && all d'
         end) a1
  | _, _ =>
      match number a, number b with
      | Some x, Some y => Qeq_bool x y
      | _, _ => false
      end
  end.

End Value.
Export Value.

(** * The schema engine (pydantic models) *)

Module Pydantic.

Inductive LocItem := LKey (s : string) | LIdx (i : nat).

(** One entry of [exc.errors()]; the [ctx] and [url] keys are left out. *)
Record ErrorDetails := {
  e_type : string;
  loc : list LocItem;
  msg : string;
  input : PyVal
}.

Definition Result (A : Type) : Type := A + list ErrorDetails.

Definition error (t : string) (m : string) (v : PyVal) : ErrorDetails :=
  {| e_type := t; loc := []; msg := m; input := v |}.

(** An error seen from one level up: its location gains a prefix. *)
Definition at_loc (l : LocItem) (e : ErrorDetails) : ErrorDetails :=
  {| e_type := e_type e; loc := l :: loc e; msg := msg e; input := input e |}.

Inductive Kind :=
| KStr
| KInt
| KFloat
| KEmailStr
| KOptional (k : Kind)
| KList (k : Kind).

(** A declared bound: its value and the way the declaration writes it. *)
Record Bound := { b_val : Q; b_repr : string }.

Inductive Constraint :=
| min_length (n : nat)
| max_length (n : nat)
| gt (b : Bound)
| ge (b : Bound)
| lt (b : Bound)
| le (b : Bound).

(** A custom validator returns the (possibly transformed) value or the
    message of the [ValueError] it raises. *)
Definition Validator := PyVal -> PyVal + string.

Record Field := {
  f_name : string;
  f_kind : Kind;
  f_default : option PyVal;          (* [None]: the field is required *)
  f_constraints : list Constraint;
  f_validators : list Validator
}.

Record Model := { m_name : string; m_fields : list Field }.

(** The parsers of the validation library that are not modelled:
    numeric strings and e-mail addresses ([validate_email] returns the
    normalised address). *)
Class Parsers := {
  str_to_int : string -> option Z;
  str_to_float : string -> option Q;
  validate_email : string -> option string
}.

Definition Qlt_bool (x y : Q) : bool := negb (Qle_bool y x).

Definition plural (n : nat) (word : string) : string :=
  pretty n +:+ " " +:+ word +:+ (if bool_decide (n = 1%nat) then "" else "s").

(** Every element of a list through [f], element [i] first: the values
    that passed and every error, located by the element's index. *)
Fixpoint collect (f : PyVal -> Result PyVal) (i : nat) (l : list PyVal)
  : list PyVal * list ErrorDetails :=
  match l with
  | [] => ([], [])
  | x :: l' =>
      let (vals, errs) := collect f (S i) l' in
      match f x with
      | inl x' => (x' :: vals, errs)
      | inr e => (vals, (at_loc (LIdx i) <$> e) ++ errs)
      end
  end.

Definition collected (r : list PyVal * list ErrorDetails) : Result PyVal :=
  match r with
  | (vals, []) => inl (VList vals)
  | (_, errs) => inr errs
  end.

Section Engine.
Context `{Parsers}.

(** Type coercion in lax mode. *)
Fixpoint coerce (k : Kind) (v : PyVal) {struct k} : Result PyVal :=
  match k with
  | KStr =>
      match v with
      | VStr s => inl v
      | _ => inr [error "string_type" "Input should be a valid string" v]
      end
  | KInt =>
      match v with
      | VInt z => inl v
      | VBool b => inl (VInt (if b then 1 else 0))
      | VFloat q =>
          let r := Qred q in
          if negb (bool_decide (Qden r = 1%positive)) then
            inr [error "int_from_float"
                   "Input should be a valid integer, got a number with a fractional part" v]
          else if (- 2 ^ 63 <? Qnum r) && (Qnum r <? 2 ^ 63) then inl (VInt (Qnum r))
          else inr [error "int_parsing_size"
                      "Unable to parse input string as an integer, exceeded maximum size" v]
      | VStr s =>
          match str_to_int s with
          | Some z => inl (VInt z)
          | None => inr [error "int_parsing"
                           "Input should be a valid integer, unable to parse string as an integer" v]
          end
      | _ => inr [error "int_type" "Input should be a valid integer" v]
      end
  | KFloat =>
      match v with
      | VFloat q => inl v
      | VInt z => inl (VFloat (inject_Z z))
      | VBool b => inl (VFloat (if b then 1%Q else 0%Q))
      | VStr s =>
          match str_to_float s with
          | Some q => inl (VFloat q)
          | None => inr [error "float_parsing"
                           "Input should be a valid number, unable to parse string as a number" v]
          end
      | _ => inr [error "float_type" "Input should be a valid number" v]
      end
  | KEmailStr =>
      match v with
      | VStr s =>
          match validate_email s with
          | Some s' => inl (VStr s')
          | None => inr [error "value_error" "value is not a valid email address" v]
          end
      | _ => inr [error "string_type" "Input should be a valid string" v]
      end
  | KOptional k' =>
      match v with
      | VNone => inl VNone
      | _ => coerce k' v
      end
  | KList k' =>
      match v with
      | VList l => collected (collect (coerce k') 0 l)
      | _ => inr [error "list_type" "Input should be a valid list" v]
      end
  end.

(** One declared constraint on a coerced value [v]; the error reports
    the raw input.  [None] (an absent optional value) satisfies every
    constraint. *)
Definition check (c : Constraint) (raw v : PyVal) : option ErrorDetails :=
  match c, v with
  | min_length n, VStr s =>
      if (Py.len s <? n)%nat
      then Some (error "string_too_short"
                   ("String should have at least " +:+ plural n "character") raw)
      else None
  | max_length n, VStr s =>
      if (n <? Py.len s)%nat
      then Some (error "string_too_long"
                   ("String should have at most " +:+ plural n "character") raw)
      else None
  | min_length n, VList l =>
      if (length l <? n)%nat
      then Some (error "too_short"
                   ("List should have at least " +:+ plural n "item"
                    +:+ " after validation, not " +:+ pretty (length l)) raw)
      else None
  | max_length n, VList l =>
      if (n <? length l)%nat
      then Some (error "too_long"
                   ("List should have at most " +:+ plural n "item"
                    +:+ " after validation, not " +:+ pretty (length l)) raw)
      else None
  | gt b, (VFloat _ | VInt _) =>
      match number v with
      | Some x =>
          if Qlt_bool (b_val b) x then None
          else Some (error "greater_than"
                       ("Input should be greater than " +:+ b_repr b) raw)
      | None => None
      end
  | ge b, (VFloat _ | VInt _) =>
      match number v with
      | Some x =>
          if Qle_bool (b_val b) x then None
          else Some (error "greater_than_equal"
                       ("Input should be greater than or equal to " +:+ b_repr b) raw)
      | None => None
      end
  | lt b, (VFloat _ | VInt _) =>
      match number v with
      | Some x =>
          if Qlt_bool x (b_val b) then None
          else Some (error "less_than"
                       ("Input should be less than " +:+ b_repr b) raw)
      | None => None
      end
  | le b, (VFloat _ | VInt _) =>
      match number v with
      | Some x =>
          if Qle_bool x (b_val b) then None
          else Some (error "less_than_equal"
                       ("Input should be less than or equal to " +:+ b_repr b) raw)
      | None => None
      end
  | _, _ => None
  end.

(** Constraints in declared order; the first violation ends the checks
    on this field. *)
Fixpoint check_all (cs : list Constraint) (raw v : PyVal) : option ErrorDetails :=
  match cs with
  | [] => None
  | c :: cs' =>
      match check c raw v with
      | Some e => Some e
      | None => check_all cs' raw v
      end
  end.

(** Custom validators in registration order, each one on the value the
    previous one returned. *)
Fixpoint run_validators (vs : list Validator) (raw v : PyVal) : Result PyVal :=
  match vs with
  | [] => inl v
  | f :: vs' =>
      match f v with
      | inl v' => run_validators vs' raw v'
      | inr m => inr [error "value_error" ("Value error, " +:+ m) raw]
      end
  end.

Definition validate_value (f : Field) (v : PyVal) : Result PyVal :=
  match coerce (f_kind f) v with
  | inr errs => inr errs
  | inl v' =>
      match check_all (f_constraints f) v v' with
      | Some e => inr [e]
      | None => run_validators (f_validators f) v v'
      end
  end.

(** A field read by name from the source [src]; an absent field takes
    its default (which is not validated) or is reported missing. *)
Definition validate_field (f : Field) (src : Dict) : Result PyVal :=
  match get src (f_name f) with
  | Some v =>
      match validate_value f v with
      | inl v' => inl v'
      | inr errs => inr (at_loc (LKey (f_name f)) <$> errs)
      end
  | None =>
      match f_default f with
      | Some d => inl d
      | None => inr [at_loc (LKey (f_name f))
                       (error "missing" "Field required" (VDict src))]
      end
  end.

(** All fields in declaration order; every error is collected. *)
Fixpoint validate_fields (fs : list Field) (src : Dict)
  : Dict * list ErrorDetails :=
  match fs with
  | [] => ([], [])
  | f :: fs' =>
      let (vals, errs) := validate_fields fs' src in
      match validate_field f src with
      | inl v => ((f_name f, v) :: vals, errs)
      | inr e => (vals, e ++ errs)
      end
  end.

(** The fields of the source: the entries of a mapping or, with
    [from_attributes], the attributes of an object. *)
Definition source (from_attributes : bool) (v : PyVal) : option Dict :=
  match v with
  | VDict d => Some d
  | VObj _ attrs => if from_attributes then Some attrs else None
  | _ => None
  end.

(** [Model.model_validate(v)]: a model instance holding the declared
    fields only, or every error found. *)
Definition validate (m : Model) (from_attributes : bool) (v : PyVal)
  : Result PyVal :=
  match source from_attributes v with
  | None =>
      inr [error "model_attributes_type"
             "Input should be a valid dictionary or object to extract fields from" v]
  | Some src =>
      match validate_fields (m_fields m) src with
      | (vals, []) => inl (VObj (m_name m) vals)
      | (_, errs) => inr errs
      end
  end.

End Engine.

(** [item.model_dump()] *)
Definition model_dump (v : PyVal) : Dict :=
  match v with
  | VObj _ attrs => attrs
  | _ => []
  end.

End Pydantic.

(** * The framework around the handlers (FastAPI) *)

Module FastAPI.
Import Pydantic.

Definition Headers := list (string * string).

Inductive Response :=
| JSONResponse (status_code : Z) (content : PyVal) (headers : Headers)
| PlainResponse (status_code : Z) (content : string)
                (media_type : option string) (headers : Headers)
| FileResponse (path : string) (filename : option string)
               (media_type : option string).

Definition status (r : Response) : Z :=
  match r with
  | JSONResponse s _ _ => s
  | PlainResponse s _ _ _ => s
  | FileResponse _ _ _ => 200
  end.

(** The JSON content of a response, if it has one. *)
Definition json (r : Response) : option PyVal :=
  match r with
  | JSONResponse _ c _ => Some c
  | _ => None
  end.

Definition empty_body (r : Response) : bool :=
  match r with
  | PlainResponse _ c _ _ => bool_decide (c = "")
  | _ => false
  end.

Inductive Exception :=
| HTTPException (status_code : Z) (detail : string) (headers : Headers)
| RequestValidationError (errors : list ErrorDetails)
| ResponseValidationError (errors : list ErrorDetails)
| OtherException (cls : string) (message : string).

(** How a handler ends: it returns a plain value, returns a response
    object, or raises. *)
Inductive Outcome :=
| Return (v : PyVal)
| ReturnResponse (r : Response)
| Raise (e : Exception).

(** An [HTTPException] object used as a plain value. *)
Definition HTTPException_object (status_code : Z) (detail : string) : PyVal :=
  VObj "HTTPException"
       [("status_code", VInt status_code); ("detail", VStr detail);
        ("headers", VNone)].

Definition loc_json (l : LocItem) : PyVal :=
  match l with
  | LKey s => VStr s
  | LIdx i => VInt (Z.of_nat i)
  end.

Definition error_json (e : ErrorDetails) : PyVal :=
  VDict [("type", VStr (e_type e)); ("loc", VList (loc_json <$> loc e));
         ("msg", VStr (msg e)); ("input", input e)].

Definition errors_json (errs : list ErrorDetails) : PyVal :=
  VList (error_json <$> errs).

Definition is_body_allowed_for_status_code (s : Z) : bool :=
  negb ((s <? 200) || bool_decide (s = 204) || bool_decide (s = 205)
        || bool_decide (s = 304)).

(** ** Default exception handlers *)

Definition http_exception_handler (s : Z) (detail : string) (h : Headers)
  : Response :=
  if is_body_allowed_for_status_code s
  then JSONResponse s (VDict [("detail", VStr detail)]) h
  else PlainResponse s "" None h.

Definition request_validation_exception_handler (errs : list ErrorDetails)
  : Response :=
  JSONResponse 422 (VDict [("detail", errors_json errs)]) [].

Definition internal_server_error : Response :=
  PlainResponse 500 "Internal Server Error" (Some "text/plain") [].

(** An application: the handler registered for [RequestValidationError],
    when the default one is overridden. *)
Record App := {
  validation_handler : option (list ErrorDetails -> Response)
}.

Definition default_app : App := {| validation_handler := None |}.

(** Exactly one handler runs per exception. *)
Definition translate (app : App) (e : Exception) : Response :=
  match e with
  | HTTPException s d h => http_exception_handler s d h
  | RequestValidationError errs =>
      match validation_handler app with
      | Some handler => handler errs
      | None => request_validation_exception_handler errs
      end
  | ResponseValidationError _ | OtherException _ _ => internal_server_error
  end.

(** ** Response models *)

Inductive ResponseType :=
| RModel (m : Model)
| RList (t : ResponseType).

Record Route := {
  response_model : option ResponseType;
  status_code : Z
}.

(** [jsonable_encoder]: model instances and other objects become
    dictionaries of their attributes. *)
Fixpoint jsonable_encoder (v : PyVal) : PyVal :=
  match v with
  | VList l => VList (map jsonable_encoder l)
  | VDict d => VDict (map (fun kv => (kv.1, jsonable_encoder kv.2)) d)
  | VObj _ attrs => VDict (map (fun kv => (kv.1, jsonable_encoder kv.2)) attrs)
  | _ => v
  end.

Section Shaping.
Context `{Parsers}.

(** Modelled from the spec: the projection of a handler's value onto
    the declared response model is done by the framework, whose code
    is not part of [src/].  It builds a new value containing only the
    schema's declared fields, reading them by name from a mapping or
    from an object with named attributes; a declared field absent from
    the source is an error only if it is required; lists of entities
    project element-wise. *)
Fixpoint project (t : ResponseType) (v : PyVal) {struct t} : Result PyVal :=
  match t with
  | RModel m =>
      match validate m true v with
      | inl o => inl (VDict (model_dump o))
      | inr errs => inr errs
      end
  | RList t' =>
      match v with
      | VList l => collected (collect (project t') 0 l)
      | _ => inr [error "list_type" "Input should be a valid list" v]
      end
  end.

(** [serialize_response]: what the handler returned, shaped by the
    route's response model when it declares one. *)
Definition serialize_response (route : Route) (v : PyVal) : Result PyVal :=
  match response_model route with
  | Some t =>
      match project t v with
      | inl content => inl content
      | inr errs => inr (at_loc (LKey "response") <$> errs)
      end
  | None => inl (jsonable_encoder v)
  end.

(** From the handler's outcome to the wire response. *)
Definition respond (app : App) (route : Route) (o : Outcome) : Response :=
  match o with
  | ReturnResponse r => r
  | Raise e => translate app e
  | Return v =>
      match serialize_response route v with
      | inr errs => translate app (ResponseValidationError errs)
      | inl content =>
          if is_body_allowed_for_status_code (status_code route)
          then JSONResponse (status_code route) content []
          else PlainResponse (status_code route) "" None []
      end
  end.

(** A route whose handler takes one body parameter of model [m]: the
    body is validated first, and the handler runs only when validation
    succeeds. *)
Definition with_body {S : Type} (app : App) (m : Model) (route : Route)
    (endpoint : PyVal -> S -> S * Outcome) (body : PyVal) (st : S)
  : S * Response :=
  match validate m false body with
  | inr errs =>
      (st, translate app
             (RequestValidationError (at_loc (LKey "body") <$> errs)))
  | inl item =>
      let (st', o) := endpoint item st in (st', respond app route o)
  end.

End Shaping.

(** A serialised value that holds the declared fields of a response
    type, in declaration order, and nothing else; element by element
    for a list. *)
Fixpoint only_declared (t : ResponseType) (c : PyVal) : Prop :=
  match t with
  | RModel m => exists attrs, c = VDict attrs /\ keys attrs = f_name <$> m_fields m
  | RList t' => exists l, c = VList l /\ Forall (only_declared t') l
  end.

End FastAPI.

(** * Snapshot 05: request bodies *)

Module Snap05.
Import Pydantic FastAPI.

Definition plain (n : string) (k : Kind) (d : option PyVal) : Field :=
  {| f_name := n; f_kind := k; f_default := d;
     f_constraints := []; f_validators := [] |}.

Definition Item : Model := {|
  m_name := "Item";
  m_fields := [plain "name" KStr None;
               plain "description" (KOptional KStr) (Some VNone);
               plain "price" KFloat None;
               plain "tax" (KOptional KFloat) (Some VNone)]
|}.

(** The truth value of an object in a condition ([if x:]). *)
Definition truthy (v : PyVal) : bool :=
  match v with
  | VNone => false
  | VBool b => b
  | VInt z => negb (bool_decide (z = 0))
  | VFloat q => negb (Qeq_bool q 0)
  | VStr s => negb (bool_decide (s = ""))
  | VList l => negb (bool_decide (l = []))
  | VDict d => negb (bool_decide (d = []))
  | VObj _ _ => true
  end.

Definition app : App := default_app.

Definition route : Route := {| response_model := None; status_code := 200 |}.

(** The sum of two finite floating point numbers as the interpreter
    computes it: the rounded result, or [None] when the sum overflows to
    an infinity. *)
Class Floats := {
  float_add : Q -> Q -> option Q
}.

(** [item] is an [Item] instance: [item.price] and [item.tax] are
    numbers or [None].  When the sum is an infinity the dictionary that
    the handler returns cannot be rendered as JSON: the request ends with
    the [ValueError] of the encoder. *)
Definition create_item `{Floats} (item : PyVal) (st : unit) : unit * Outcome :=
  let item_dict := model_dump item in
  match get item_dict "tax" with
  | None => (st, Raise (OtherException "AttributeError" "tax"))
  | Some tax =>
      if truthy tax then
        match get item_dict "price" with
        | None => (st, Raise (OtherException "AttributeError" "price"))
        | Some price =>
            match number price, number tax with
            | Some p, Some t =>
                match float_add p t with
                | Some price_with_tax =>
                    (st, Return (VDict (merge item_dict
                                          [("price_with_tax",
                                            VFloat price_with_tax)])))
                | None =>
                    (st, Raise (OtherException "ValueError"
                                  "Out of range float values are not JSON compliant"))
                end
            | _, _ =>
                (st, Raise (OtherException "TypeError" "unsupported operand"))
            end
        end
      else (st, Return (VDict item_dict))
  end.

Definition update_item (item_id : Z) (item : PyVal) (st : unit) : unit * Outcome :=
  (st, Return (VDict [("item_id", VInt item_id);
                      ("updated_item_data", VDict (model_dump item))])).


Section Requests.
Context `{Parsers} `{Floats}.

(** [POST /items/] *)
Definition post_items (body : PyVal) : Response :=
  (with_body app Item route create_item body tt).2.

End Requests.

End Snap05.

(** * Snapshot 06: validated item creation *)

Module Snap06.
Import Pydantic FastAPI.

Section NameField.
Context `{Py.Unicode}.

Definition name_must_not_be_admin : Validator := fun v =>
  match v with
  | VStr s =>
      if Py.contains "admin" (Py.lower s)
      then inr "Item name cannot contain 'admin'"
      else inl (VStr (Py.title s))
  | _ => inl v
  end.

(** The fields of [Item], in declaration order. *)
Definition Item_name : Field :=
  {| f_name := "name"; f_kind := KStr; f_default := None;
     f_constraints := [min_length 3; max_length 50];
     f_validators := [name_must_not_be_admin] |}.

End NameField.

Definition Item_description : Field :=
  {| f_name := "description"; f_kind := KOptional KStr;
     f_default := Some VNone;
     f_constraints := [max_length 300];
     f_validators := [] |}.

Definition Item_price : Field :=
  {| f_name := "price"; f_kind := KFloat; f_default := None;
     f_constraints := [gt {| b_val := 0; b_repr := "0" |};
                       le {| b_val := 100000; b_repr := "100000" |}];
     f_validators := [] |}.

Definition Item_tax : Field :=
  {| f_name := "tax"; f_kind := KOptional KFloat; f_default := Some VNone;
     f_constraints := [gt {| b_val := 0; b_repr := "0" |}];
     f_validators := [] |}.

Definition Item_tag : Field :=
  {| f_name := "tag"; f_kind := KList KStr; f_default := Some (VList []);
     f_constraints := [min_length 1; max_length 5];
     f_validators := [] |}.

Definition Item `{Py.Unicode} : Model := {|
  m_name := "Item";
  m_fields := [Item_name; Item_description; Item_price; Item_tax; Item_tag]
|}.

(** The error reported for the integer -5 given as [price]. *)
Definition price_error : ErrorDetails :=
  {| e_type := "greater_than"; loc := [LKey "price"];
     msg := "Input should be greater than 0"; input := VInt (-5) |}.

Definition app : App := default_app.

(** [items_db]: item id to the dumped item. *)
Abbreviation DB := (gmap Z Dict).

Definition create_item_route : Route :=
  {| response_model := None; status_code := 201 |}.

Definition create_item (item : PyVal) (items_db : DB) : DB * Outcome :=
  let item_id := Z.of_nat (size items_db) + 1 in
  let stored := model_dump item in
  let items_db' := <[item_id := stored]> items_db in
  (items_db', Return (VDict (merge [("item_id", VInt item_id)] stored))).



Section Requests.
Context `{Parsers} `{Py.Unicode}.

(** [POST /items/] *)
Definition post_items (body : PyVal) (items_db : DB) : DB * Response :=
  with_body app Item create_item_route create_item body items_db.

End Requests.

End Snap06.

(** * Snapshot 09: exception handlers *)

Module Snap09.
Import Pydantic FastAPI.

Definition HTTP_400_BAD_REQUEST : Z := 400.

(** The handler registered for [RequestValidationError]; its argument is
    [exc.errors()]. *)
Definition validation_exception_handler (errors : list ErrorDetails)
  : Response :=
  JSONResponse HTTP_400_BAD_REQUEST
    (VDict [("message", VStr "Invalid input provided.");
            ("details", errors_json errors)])
    [].

Definition app : App :=
  {| validation_handler := Some validation_exception_handler |}.

Definition InputData : Model := {|
  m_name := "InputData";
  m_fields := [
    {| f_name := "value"; f_kind := KInt; f_default := None;
       f_constraints := [gt {| b_val := 10; b_repr := "10" |}];
       f_validators := [] |}
  ]
|}.

Definition validate_route : Route :=
  {| response_model := None; status_code := 200 |}.

Definition validate_endpoint (data : PyVal) (st : unit) : unit * Outcome :=
  (st, Return (VDict [("message", VStr "Data is valid!");
                      ("received_value",
                       default VNone (get (model_dump data) "value"))])).

Section Requests.
Context `{Parsers}.

(** [POST /validate] *)
Definition post_validate (body : PyVal) : Response :=
  (with_body app InputData validate_route validate_endpoint body tt).2.
End Requests.

(** The custom exception of this snapshot, next to the ways a handler
    ends in the framework. *)
Inductive Ending :=
| Ended (o : Outcome)
| RaisedUnicorn (name message : string).

(** The handler registered for [UnicornException]; [request_url] is
    [str(request.url)]. *)
Definition unicorn_exception_handler (request_url : string)
    (name message : string) : Response :=
  JSONResponse 418
    (VDict [("error_type", VStr "Unicorn Error");
            ("failed_item_name", VStr name);
            ("message", VStr message);
            ("request_url", VStr request_url)])
    [].

Definition generate_unicorn_error (name : string) : Ending :=
  if bool_decide (name = "sparkle") then
    RaisedUnicorn name "Sparkle caused a rainbow overload!"
  else if bool_decide (name = "invalid") then
    Ended (Raise (OtherException "ValueError" "This is an unhandled ValueError"))
  else
    Ended (Return (VDict [("unicorn_name", VStr name); ("status", VStr "ok")])).

Definition unicorn_route : Route :=
  {| response_model := None; status_code := 200 |}.

Section Unicorns.
Context `{Parsers}.

(** [GET /unicorns/{name}] *)
Definition get_unicorn (request_url name : string) : Response :=
  match generate_unicorn_error name with
  | RaisedUnicorn n m => unicorn_exception_handler request_url n m
  | Ended o => respond app unicorn_route o
  end.
End Unicorns.

End Snap09.

(** * Snapshot 10: response models *)

Module Snap10.
Import Pydantic FastAPI.

Record UserIn := {
  username : string;
  password : string;
  email : string;
  full_name : option string
}.

Record ItemInternal := {
  name : string;
  price : Q;
  owner_id : Z;
  secret_code : string
}.

Definition optional_str (o : option string) : PyVal :=
  match o with
  | Some s => VStr s
  | None => VNone
  end.

(** The model instances as the framework sees them. *)
Definition UserIn_object (u : UserIn) : PyVal :=
  VObj "UserIn"
       [("username", VStr (username u)); ("password", VStr (password u));
        ("email", VStr (email u)); ("full_name", optional_str (full_name u))].

Definition ItemInternal_object (i : ItemInternal) : PyVal :=
  VObj "ItemInternal"
       [("name", VStr (name i)); ("price", VFloat (price i));
        ("owner_id", VInt (owner_id i)); ("secret_code", VStr (secret_code i))].

Definition plain (n : string) (k : Kind) (d : option PyVal) : Field :=
  {| f_name := n; f_kind := k; f_default := d;
     f_constraints := []; f_validators := [] |}.

Definition UserOut : Model := {|
  m_name := "UserOut";
  m_fields := [plain "username" KStr None; plain "email" KEmailStr None;
               plain "full_name" (KOptional KStr) (Some VNone)]
|}.

Definition ItemPublic : Model := {|
  m_name := "ItemPublic";
  m_fields := [plain "name" KStr None; plain "price" KFloat None]
|}.

(** [fake_users_db]: username to the [UserIn] object. *)
Abbreviation UsersDB := (gmap string UserIn).

(** [fake_items_db] is only read; it is kept in insertion order, the
    order of [fake_items_db.values()]. *)
Definition ItemsDB := list (Z * ItemInternal).

Definition fake_items_db : ItemsDB :=
  [(1, {| name := "keyboard"; price := 75; owner_id := 1; secret_code := "abc" |});
   (2, {| name := "Mouse"; price := 51 # 2; owner_id := 1; secret_code := "def" |});
   (3, {| name := "Monitor"; price := 300; owner_id := 2; secret_code := "ghi" |})].

Fixpoint items_get (db : ItemsDB) (item_id : Z) : option ItemInternal :=
  match db with
  | [] => None
  | (k, i) :: db' => if bool_decide (k = item_id) then Some i else items_get db' item_id
  end.

Definition app : App := default_app.

Definition create_user_route : Route :=
  {| response_model := Some (RModel UserOut); status_code := 201 |}.

Definition create_user (user : UserIn) (fake_users_db : UsersDB)
  : UsersDB * Outcome :=
  (<[username user := user]> fake_users_db, Return (UserIn_object user)).

Definition read_user_route : Route :=
  {| response_model := Some (RModel UserOut); status_code := 200 |}.

Definition read_user (username : string) (fake_users_db : UsersDB) : Outcome :=
  match fake_users_db !! username with
  | None => Raise (HTTPException 404 "User not found" [])
  | Some user_in_db => Return (UserIn_object user_in_db)
  end.

Definition read_items_route : Route :=
  {| response_model := Some (RList (RModel ItemPublic)); status_code := 200 |}.

Definition read_items (db : ItemsDB) : Outcome :=
  let internal_items_list := ItemInternal_object <$> db.*2 in
  Return (VList internal_items_list).

Definition read_single_item_route : Route :=
  {| response_model := Some (RModel ItemPublic); status_code := 200 |}.

Definition read_single_item (item_id : Z) (db : ItemsDB) : Outcome :=
  match items_get db item_id with
  | None => Raise (HTTPException 404 "Item not found" [])
  | Some internal_item => Return (ItemInternal_object internal_item)
  end.

(** The users created one after the other, starting from a store. *)
Definition create_users (users : list UserIn) (db : UsersDB) : UsersDB :=
  fold_left (fun db user => (create_user user db).1) users db.

End Snap10.

(** * Snapshot 12: status codes *)

Module Snap12.
Import Pydantic FastAPI.

Definition HTTP_201_CREATED : Z := 201.
Definition HTTP_204_NO_CONTENT : Z := 204.
Definition HTTP_304_NOT_MODIFIED : Z := 304.
Definition HTTP_404_NOT_FOUND : Z := 404.

(** The module-level state: [items_db] and [item_next_id]. *)
Record State := {
  items_db : gmap Z Dict;
  item_next_id : Z
}.

Definition initial : State := {|
  items_db :=
    <[2 := [("name", VStr "keyboard"); ("price", VFloat 75)]]>
      (<[1 := [("name", VStr "Laptop"); ("price", VFloat 1200)]]> ∅);
  item_next_id := 3
|}.

Definition Item : Model := {|
  m_name := "Item";
  m_fields := [
    {| f_name := "name"; f_kind := KStr; f_default := None;
       f_constraints := []; f_validators := [] |};
    {| f_name := "price"; f_kind := KFloat; f_default := None;
       f_constraints := []; f_validators := [] |}
  ]
|}.

Definition app : App := default_app.

Definition create_item_route : Route :=
  {| response_model := Some (RModel Item); status_code := HTTP_201_CREATED |}.

Definition create_item (item : PyVal) (st : State) : State * Outcome :=
  let created_item_info :=
    merge [("id", VInt (item_next_id st))] (model_dump item) in
  ({| items_db := <[item_next_id st := model_dump item]> (items_db st);
      item_next_id := item_next_id st + 1 |},
   Return (VDict created_item_info)).

Definition delete_item_route : Route :=
  {| response_model := None; status_code := HTTP_204_NO_CONTENT |}.

Definition delete_item (item_id : Z) (st : State) : State * Outcome :=
  match items_db st !! item_id with
  | Some _ =>
      ({| items_db := delete item_id (items_db st);
          item_next_id := item_next_id st |},
       Return VNone)
  | None => (st, Raise (HTTPException HTTP_404_NOT_FOUND "Item not found" []))
  end.

Definition update_item_route : Route :=
  {| response_model := Some (RModel Item); status_code := 200 |}.

Definition update_item (item_id : Z) (item : PyVal) (st : State)
  : State * Outcome :=
  match items_db st !! item_id with
  | None => (st, Raise (HTTPException HTTP_404_NOT_FOUND "Item not found" []))
  | Some stored =>
      if eqb (VDict stored) (VDict (model_dump item)) then
        (* the exception object is returned, not raised *)
        (st, Return (HTTPException_object HTTP_304_NOT_MODIFIED "Not Modified"))
      else
        ({| items_db := <[item_id := model_dump item]> (items_db st);
            item_next_id := item_next_id st |},
         Return (VDict (model_dump item)))
  end.

Section Requests.
Context `{Parsers}.

(** [POST /items/] *)
Definition post_items (body : PyVal) (st : State) : State * Response :=
  with_body app Item create_item_route create_item body st.

(** [DELETE /items/{item_id}] *)
Definition delete_items (item_id : Z) (st : State) : State * Response :=
  let (st', o) := delete_item item_id st in
  (st', respond app delete_item_route o).

(** [PUT /items/{item_id}] *)
Definition put_items (item_id : Z) (body : PyVal) (st : State)
  : State * Response :=
  with_body app Item update_item_route (update_item item_id) body st.
End Requests.

(** Every id in the store is below [item_next_id]. *)
Definition ids_below_next (st : State) : Prop :=
  forall k : Z, is_Some (items_db st !! k) -> k < item_next_id st.

End Snap12.

(** * Snapshot 14: file uploads *)

Module Snap14.
Import FastAPI.

Definition UPLOAD_DIR : string := "./uploads".

Record UploadFile := {
  filename : option string;
  content_type : option string;
  data : string
}.

Definition optional_str (o : option string) : PyVal :=
  match o with
  | Some s => VStr s
  | None => VNone
  end.

Section Handlers.
(** The file system, and the chunked copy of an upload to a
    destination inside the [try] block: it leaves a new file system
    and, when it raised, the text [str(e)] of the exception. *)
Variable FS : Type.
Variable save : UploadFile -> string -> FS -> FS * option string.

(** The body of the [for file in files] loop. *)
Fixpoint process (files : list UploadFile) (saved_files : list PyVal) (fs : FS)
  : FS * list PyVal :=
  match files with
  | [] => (fs, saved_files)
  | file :: files' =>
      let safe_filename :=
        posixpath.basename
          (Py.or_default (filename file)
             ("uploaded_file_" +:+ pretty (length saved_files))) in
      let destination := posixpath.join UPLOAD_DIR safe_filename in
      match save file destination fs with
      | (fs', None) =>
          process files'
            (saved_files ++
               [VDict [("filename", optional_str (filename file));
                       ("save_path", VStr destination)]]) fs'
      | (fs', Some e) =>
          process files'
            (saved_files ++
               [VDict [("filename", optional_str (filename file));
                       ("error", VStr e)]]) fs'
      end
  end.

Definition upload_multiple_files (files : list UploadFile) (fs : FS)
  : FS * Outcome :=
  let (fs', saved_files) := process files [] fs in
  (fs', Return (VDict [("message",
                        VStr (pretty (length saved_files) +:+ " files processed."));
                       ("details", VList saved_files)])).

(** Where the loop saves a file when [n] entries have been recorded. *)
Definition destination_of (n : nat) (file : UploadFile) : string :=
  posixpath.join UPLOAD_DIR
    (posixpath.basename
       (Py.or_default (filename file) ("uploaded_file_" +:+ pretty n))).

(** The file system the loop has reached when it comes to file [i] of
    [files], having started at [fs] with [n] entries recorded. *)
Fixpoint fs_before (files : list UploadFile) (n : nat) (fs : FS) (i : nat) : FS :=
  match i, files with
  | S i', file :: files' =>
      fs_before files' (S n) (save file (destination_of n file) fs).1 i'
  | _, _ => fs
  end.

(** The entry recorded for a file, by the result of saving it. *)
Definition entry_of (file : UploadFile) (destination : string)
    (raised : option string) : PyVal :=
  match raised with
  | None => VDict [("filename", optional_str (filename file));
                   ("save_path", VStr destination)]
  | Some e => VDict [("filename", optional_str (filename file));
                     ("error", VStr e)]
  end.

End Handlers.

Section SingleFile.
Variable FS : Type.
Variable save : UploadFile -> string -> FS -> FS * option string.

Definition HTTP_500_INTERNAL_SERVER_ERROR : Z := 500.

Definition upload_single_file (file : UploadFile) (fs : FS) : FS * Outcome :=
  let safe_filename :=
    posixpath.basename (Py.or_default (filename file) "upload_file") in
  let destination := posixpath.join UPLOAD_DIR safe_filename in
  match save file destination fs with
  | (fs', Some e) =>
      (fs', Raise (HTTPException HTTP_500_INTERNAL_SERVER_ERROR
                     ("Could not dave file: " +:+ e) []))
  | (fs', None) =>
      (fs', Return (VDict [("filename", optional_str (filename file));
                           ("content_type", optional_str (content_type file));
                           ("save_path", VStr destination)]))
  end.

End SingleFile.

End Snap14.

(** * Snapshot 15: file downloads *)

Module Snap15.
Import FastAPI.

Definition HTTP_404_NOT_FOUND : Z := 404.
Definition HTTP_403_FORBIDDEN : Z := 403.

Definition DOWNLOAD_DIR : string := "./downloadables/".

Section Handlers.
(** The environment of a request: the working directory of the server
    process ([os.getcwd()]), the regular files of the file system
    ([os.path.isfile]) and the MIME table ([mimetypes.guess_type],
    first component of its result). *)
Variable cwd : string.
Variable isfile : string -> bool.
Variable guess_type : string -> option string.

Definition download_basic (file_name : string) : Outcome :=
  let safe_base_filename := posixpath.basename file_name in
  let file_path := posixpath.join DOWNLOAD_DIR safe_base_filename in
  if negb (isfile file_path) then
    Raise (HTTPException HTTP_404_NOT_FOUND "File not found" [])
  else if negb (Py.startswith file_path (posixpath.abspath cwd DOWNLOAD_DIR)) then
    Raise (HTTPException HTTP_403_FORBIDDEN "Access denied" [])
  else ReturnResponse (FileResponse file_path None None).

(** The last part of [download_custom], after the two guards. *)
Definition custom_file_response (file_path safe_base_filename : string)
  : Response :=
  let media_type :=
    match guess_type file_path with
    | None => "application/octet-stream"
    | Some media_type => media_type
    end in
  let download_filename := "download_" +:+ safe_base_filename in
  FileResponse file_path (Some download_filename) (Some media_type).

Definition download_custom (file_name : string) : Outcome :=
  let safe_base_filename := posixpath.basename file_name in
  let file_path := posixpath.join DOWNLOAD_DIR safe_base_filename in
  if negb (isfile file_path) then
    Raise (HTTPException HTTP_404_NOT_FOUND "File not found" [])
  else if negb (Py.startswith file_path (posixpath.abspath cwd DOWNLOAD_DIR)) then
    Raise (HTTPException HTTP_403_FORBIDDEN "Access denied" [])
  else ReturnResponse (custom_file_response file_path safe_base_filename).

Definition download_route : Route :=
  {| response_model := None; status_code := 200 |}.

Context `{Pydantic.Parsers}.

(** [GET /download/basic/{file_name}] *)
Definition get_download_basic (file_name : string) : Response :=
  respond default_app download_route (download_basic file_name).

(** [GET /download/custom/{file_name}] *)
Definition get_download_custom (file_name : string) : Response :=
  respond default_app download_route (download_custom file_name).

End Handlers.

End Snap15.

(** * The validation-failure response in the words of the specification *)

Module SpecWords.
Import FastAPI.

(** One entry of the error sequence names its field path under the key
    the specification uses, or under the key of the framework. *)
Definition entry_path (entry : PyVal) : option PyVal :=
  match entry with
  | VDict d =>
      match get d "field_path" with
      | Some p => Some p
      | None => get d "loc"
      end
  | _ => None
  end.

(** "status 400 whose body is an ordered sequence of entries containing
    an entry whose field_path is [path]". *)
Definition validation_failure_400 (path : list PyVal) (r : Response) : Prop :=
  status r = 400
  /\ exists entries entry,
       json r = Some (VList entries)
       /\ entry ∈ entries
       /\ entry_path entry = Some (VList path).

End SpecWords.

(** * Sample environments *)

Module Sample.
Import Pydantic.

(** Case mappings that touch the letters A-Z and a-z only; on ASCII
    strings they are the ones of Python. *)
Definition is_upper (c : ascii) : bool :=
  let n := Ascii.nat_of_ascii c in (65 <=? n)%nat && (n <=? 90)%nat.

Definition is_lower (c : ascii) : bool :=
  let n := Ascii.nat_of_ascii c in (97 <=? n)%nat && (n <=? 122)%nat.

Definition is_cased (c : ascii) : bool := is_upper c || is_lower c.

Definition lower_char (c : ascii) : ascii :=
  if is_upper c then Ascii.ascii_of_nat (Ascii.nat_of_ascii c + 32) else c.

Definition upper_char (c : ascii) : ascii :=
  if is_lower c then Ascii.ascii_of_nat (Ascii.nat_of_ascii c - 32) else c.

Fixpoint ascii_lower (s : string) : string :=
  match s with
  | EmptyString => EmptyString
  | String c s' => String (lower_char c) (ascii_lower s')
  end.

(** A letter is upper-cased when the previous character is not a letter,
    and lower-cased otherwise. *)
Fixpoint ascii_title_from (previous_is_cased : bool) (s : string) : string :=
  match s with
  | EmptyString => EmptyString
  | String c s' =>
      String (if previous_is_cased then lower_char c else upper_char c)
             (ascii_title_from (is_cased c) s')
  end.

#[export] Instance unicode : Py.Unicode := {|
  Py.lower := ascii_lower;
  Py.title := ascii_title_from false
|}.


(** Parsers that accept a few literal inputs. *)
#[export] Instance parsers : Parsers := {|
  str_to_int := fun s => if bool_decide (s = "42") then Some 42 else None;
  str_to_float := fun s => if bool_decide (s = "12.5") then Some (25 # 2) else None;
  validate_email := fun s =>
    if bool_decide (s = "kim@example.com") then Some s else None
|}.

(** A MIME table with two known extensions. *)
Definition guess_type (path : string) : option string :=
  if Py.contains ".pdf" path then Some "application/pdf"
  else if Py.contains ".txt" path then Some "text/plain"
  else None.

(** A file system as the list of the paths written so far; saving to a
    path that mentions "full" raises. *)
Definition save_unless_full (file : Snap14.UploadFile) (destination : string)
    (fs : list string) : list string * option string :=
  if Py.contains "full" destination
  then (fs, Some "No space left on device")
  else (fs ++ [destination], None).

Definition upload (name : string) : Snap14.UploadFile :=
  {| Snap14.filename := Some name; Snap14.content_type := None;
     Snap14.data := "data" |}.

(** Item payloads: a negative price, and a valid item. *)
Definition negative_price_payload : PyVal :=
  VDict [("name", VStr "Gaming Keyboard"); ("price", VInt (-5))].

Definition keyboard_payload : Dict :=
  [("name", VStr "gaming keyboard"); ("price", VInt 5)].

(** A file system whose only regular file is [path]. *)
Definition only_file (path : string) : string -> bool :=
  fun p => bool_decide (p = path).

End Sample.

(** * Properties *)

(** Evaluates the comparisons of literal keys met when a dictionary with
    known keys is read. *)
Ltac decide_keys :=
  repeat match goal with
    | |- context [bool_decide (?a = ?b)] =>
        let r := eval vm_compute in (bool_decide (a = b)) in
        lazymatch r with
        | true => change (bool_decide (a = b)) with true
        | false => change (bool_decide (a = b)) with false
        end; cbv iota
    end.

(** ** Paths *)

Section PathFacts.
Import posixpath.

Lemma basename_no_sep (p : string) : has_sep (basename p) = false.
Proof.
  induction p as [|c p IH]; simpl; [done|].
  destruct (has_sep p) eqn:Hp; [done|].
  case_bool_decide as Hc; [done|].
  simpl. rewrite Hp. by rewrite bool_decide_eq_false_2.
Qed.

Lemma startswith_sep (c : ascii) (p : string) :
  Py.startswith (String c p) "/" = bool_decide (c = sep).
Proof.
  cbn [Py.startswith]. rewrite andb_true_r.
  apply bool_decide_ext. unfold sep; split; congruence.
Qed.

Lemma no_sep_not_abs (b : string) : has_sep b = false -> Py.startswith b "/" = false.
Proof.
  destruct b as [|c b]; [done|]. cbn [has_sep].
  intros [Hc _]%orb_false_iff. by rewrite startswith_sep.
Qed.

(** Joining a directory that ends in a separator with a bare name is
    concatenation. *)
Lemma join_under (d b : string) :
  Py.endswith_char d sep = true -> has_sep b = false -> join d b = d +:+ b.
Proof.
  intros Hd Hb. unfold join. rewrite (no_sep_not_abs _ Hb), Hd.
  by rewrite orb_true_r.
Qed.

Lemma isabs_cons (p : string) : isabs p = true -> exists p', p = String "/" p'.
Proof.
  unfold isabs. destruct p as [|c p]; [done|].
  rewrite startswith_sep. intros ->%bool_decide_eq_true. eauto.
Qed.

Lemma normpath_isabs (p : string) : isabs p = true -> isabs (normpath p) = true.
Proof.
  intros [p' ->]%isabs_cons. unfold normpath.
  rewrite bool_decide_eq_false_2 by done.
  change (Py.startswith (String "/" p') "/") with true. cbv iota.
  destruct (_ && _); cbv zeta; cbv iota; by rewrite bool_decide_eq_false_2.
Qed.

Lemma join_isabs (a b : string) : isabs a = true -> isabs (join a b) = true.
Proof.
  intros Ha. unfold join. destruct (Py.startswith b "/") eqn:Hb; [done|].
  destruct (isabs_cons _ Ha) as [a' ->].
  by destruct (_ || _).
Qed.

Lemma abspath_isabs (cwd p : string) :
  isabs cwd = true -> isabs (abspath cwd p) = true.
Proof.
  intros Hc. unfold abspath. apply normpath_isabs.
  destruct (isabs p) eqn:Hp; [done|]. by apply join_isabs.
Qed.

End PathFacts.

(** ** Snapshot 15: downloads *)

Section Snap15Facts.
Import FastAPI Snap15 posixpath.
Context `{Pydantic.Parsers}.

Lemma basename_id (name : string) : has_sep name = false -> basename name = name.
Proof.
  destruct name as [|c name]; [done|]. cbn [has_sep basename].
  intros [Hc ->]%orb_false_iff. by rewrite Hc.
Qed.

Lemma download_path (file_name : string) :
  join DOWNLOAD_DIR (basename file_name) = DOWNLOAD_DIR +:+ basename file_name.
Proof. apply join_under; [done|apply basename_no_sep]. Qed.

(** The relative path built by the handlers never starts with an
    absolute path. *)
Lemma download_path_not_under (cwd b : string) :
  isabs cwd = true ->
  Py.startswith (DOWNLOAD_DIR +:+ b) (abspath cwd DOWNLOAD_DIR) = false.
Proof.
  intros Hcwd.
  destruct (isabs_cons _ (abspath_isabs cwd DOWNLOAD_DIR Hcwd)) as [p' ->].
  done.
Qed.

Lemma length_append (a b : string) :
  String.length (a +:+ b) = (String.length a + String.length b)%nat.
Proof. induction a as [|c a IH]; simpl; [done|]. by rewrite IH. Qed.

(** C2: a file name with directory components is cut down to its last
    component before it is joined with the download directory (so
    "../../etc/passwd" becomes "passwd"), the path that is tested is that
    component directly under the download directory, and the request
    ends in 404 or 403: no file response is ever produced. *)
Theorem download_basic_traversal
    (cwd : string) (isfile : string -> bool) (file_name : string) :
  isabs cwd = true ->
  let o := download_basic cwd isfile file_name in
  let r := get_download_basic cwd isfile file_name in
  has_sep (basename file_name) = false
  /\ basename "../../etc/passwd" = "passwd"
  /\ join DOWNLOAD_DIR (basename file_name) = DOWNLOAD_DIR +:+ basename file_name
  /\ (isfile (DOWNLOAD_DIR +:+ basename file_name) = false ->
      o = Raise (HTTPException 404 "File not found" []))
  /\ (isfile (DOWNLOAD_DIR +:+ basename file_name) = true ->
      o = Raise (HTTPException 403 "Access denied" []))
  /\ (status r = 404 \/ status r = 403)
  /\ (forall path filename media_type, r <> FileResponse path filename media_type).
Proof.
  intros Hcwd o r. subst o r.
  unfold get_download_basic, download_basic. rewrite download_path.
  rewrite (download_path_not_under _ _ Hcwd).
  split; [apply basename_no_sep|]. split; [done|]. split; [done|].
  destruct (isfile _); cbn; repeat split; try done; auto.
Qed.

(** C3: on the code, a regular file that exists directly under the
    download directory is not served: both download handlers answer 403
    for it, because the relative path they built is compared with the
    absolute path of the directory. *)
Theorem download_existing_file_denied
    (cwd : string) (isfile : string -> bool)
    (guess_type : string -> option string) (name : string) :
  isabs cwd = true ->
  has_sep name = false ->
  isfile (DOWNLOAD_DIR +:+ name) = true ->
  download_basic cwd isfile name = Raise (HTTPException 403 "Access denied" [])
  /\ download_custom cwd isfile guess_type name
     = Raise (HTTPException 403 "Access denied" [])
  /\ status (get_download_basic cwd isfile name) = 403
  /\ status (get_download_custom cwd isfile guess_type name) = 403.
Proof.
  intros Hcwd Hname Hfile.
  unfold get_download_basic, get_download_custom, download_basic, download_custom.
  rewrite download_path, (basename_id _ Hname), Hfile.
  by rewrite (download_path_not_under _ _ Hcwd).
Qed.

(** The response that the customised download builds past its guards
    takes its MIME type from [guess_type] on the file path, with
    application/octet-stream exactly when the type is unknown, and
    suggests the download name "download_" followed by the base name,
    which always differs from the name of the file on the server. *)
Lemma custom_download_response
    (guess_type : string -> option string) (file_path safe_base_filename : string) :
  exists download_filename media_type,
    custom_file_response guess_type file_path safe_base_filename
      = FileResponse file_path (Some download_filename) (Some media_type)
    /\ (guess_type file_path = None -> media_type = "application/octet-stream")
    /\ (forall known, guess_type file_path = Some known -> media_type = known)
    /\ download_filename = "download_" +:+ safe_base_filename
    /\ download_filename <> safe_base_filename.
Proof.
  unfold custom_file_response. eexists _, _. split; [done|].
  split; [by intros ->|]. split; [by intros known ->|]. split; [done|].
  intros Heq. apply (f_equal String.length) in Heq.
  rewrite length_append in Heq. simpl in Heq. lia.
Qed.


End Snap15Facts.

Lemma download_basic_traversal_witness :
  posixpath.isabs "/srv/app" = true
  /\ Snap15.download_basic "/srv/app"
       (Sample.only_file "./downloadables/passwd") "../../etc/passwd"
     = FastAPI.Raise (FastAPI.HTTPException 403 "Access denied" [])
  /\ (forall path filename media_type,
        Snap15.get_download_basic (H := Sample.parsers) "/srv/app"
          (Sample.only_file "./downloadables/passwd") "../../etc/passwd"
        <> FastAPI.FileResponse path filename media_type).
Proof.
  split; [reflexivity|].
  destruct (download_basic_traversal (H := Sample.parsers) "/srv/app"
              (Sample.only_file "./downloadables/passwd") "../../etc/passwd"
              eq_refl) as (_ & _ & _ & _ & Hdenied & _ & Hnever).
  split; [exact (Hdenied eq_refl)|exact Hnever].
Defined.


Lemma download_existing_file_denied_witness :
  posixpath.isabs "/srv/app" = true
  /\ posixpath.has_sep "report.pdf" = false
  /\ Sample.only_file "./downloadables/report.pdf" "./downloadables/report.pdf" = true
  /\ Snap15.download_basic "/srv/app"
       (Sample.only_file "./downloadables/report.pdf") "report.pdf"
     = FastAPI.Raise (FastAPI.HTTPException 403 "Access denied" [])
  /\ Snap15.download_custom "/srv/app"
       (Sample.only_file "./downloadables/report.pdf") Sample.guess_type "report.pdf"
     = FastAPI.Raise (FastAPI.HTTPException 403 "Access denied" []).
Proof.
  split; [reflexivity|]. split; [reflexivity|]. split; [reflexivity|].
  destruct (download_existing_file_denied (H := Sample.parsers) "/srv/app"
              (Sample.only_file "./downloadables/report.pdf")
              Sample.guess_type "report.pdf" eq_refl eq_refl eq_refl)
    as (Hbasic & Hcustom & _).
  split; [exact Hbasic|exact Hcustom].
Defined.

(** ** The schema engine *)

Section EngineFacts.
Import Pydantic FastAPI.
Context `{Parsers}.

Lemma collect_errors_nil (f : PyVal -> Result PyVal) (l : list PyVal) :
  forall i vals,
    (forall x e, f x = inr e -> e <> []) ->
    collect f i l = (vals, []) ->
    Forall2 (fun x x' => f x = inl x') l vals.
Proof.
  induction l as [|x l IH]; intros i vals Hf; cbn [collect].
  - intros [= <-]. constructor.
  - destruct (collect f (S i) l) as [vals' errs'] eqn:Hc.
    destruct (f x) as [x'|e] eqn:Hx.
    + intros [= <- ->]. constructor; [done|]. by eapply IH.
    + intros [= _ Happ]. apply app_eq_nil in Happ as [He _].
      apply fmap_nil_inv in He. by apply Hf in Hx.
Qed.

Lemma collected_inr (r : list PyVal * list ErrorDetails) (e : list ErrorDetails) :
  collected r = inr e -> e <> [].
Proof. destruct r as [vals [|e0 errs]]; cbn; [done|]. by intros [= <-]. Qed.

Lemma coerce_inr (k : Kind) : forall v e, coerce k v = inr e -> e <> [].
Proof.
  induction k as [| | | |k IH|k IH]; intros v e; cbn [coerce].
  - destruct v; by intros [= <-].
  - destruct v; try by intros [= <-].
    + cbv zeta. destruct (negb _); [by intros [= <-]|].
      destruct (_ && _); by intros [= <-].
    + destruct (str_to_int s); by intros [= <-].
  - destruct v; try by intros [= <-].
    destruct (str_to_float s); by intros [= <-].
  - destruct v; try by intros [= <-].
    destruct (validate_email s); by intros [= <-].
  - destruct v; try apply IH. done.
  - destruct v; try by intros [= <-]. apply collected_inr.
Qed.

Lemma run_validators_inr (vs : list Validator) (raw : PyVal) :
  forall v e, run_validators vs raw v = inr e -> e <> [].
Proof.
  induction vs as [|f vs IH]; intros v e; cbn [run_validators]; [done|].
  destruct (f v); [apply IH|]. by intros [= <-].
Qed.

Lemma validate_field_inr (f : Field) (src : Dict) (e : list ErrorDetails) :
  validate_field f src = inr e -> e <> [].
Proof.
  unfold validate_field, validate_value.
  destruct (get src (f_name f)) as [v|].
  - destruct (coerce (f_kind f) v) as [v'|e1] eqn:Hc.
    + destruct (check_all _ _ _).
      * by intros [= <-].
      * destruct (run_validators _ _ _) as [|e2] eqn:Hr; [done|].
        intros [= <-]. apply run_validators_inr in Hr. by destruct e2.
    + intros [= <-]. apply coerce_inr in Hc. by destruct e1.
  - destruct (f_default f); [done|]. by intros [= <-].
Qed.

(** The fields of a validated model are the declared ones, each one read
    through [validate_field]. *)
Lemma validate_fields_ok (fs : list Field) (src : Dict) :
  forall vals,
    validate_fields fs src = (vals, []) ->
    Forall2 (fun f kv => kv.1 = f_name f /\ validate_field f src = inl kv.2) fs vals.
Proof.
  induction fs as [|f fs IH]; intros vals; cbn [validate_fields].
  - intros [= <-]. constructor.
  - destruct (validate_fields fs src) as [vals' errs'].
    destruct (validate_field f src) as [v|e] eqn:Hf.
    + intros [= <- ->]. constructor; [done|]. by apply IH.
    + intros [= _ Happ]. apply app_eq_nil in Happ as [-> _].
      by apply validate_field_inr in Hf.
Qed.

Lemma validate_fields_keys (fs : list Field) (src : Dict) (vals : Dict) :
  validate_fields fs src = (vals, []) -> keys vals = f_name <$> fs.
Proof.
  intros Hv%validate_fields_ok. unfold keys.
  induction Hv as [|f kv fs vals [Hk _] _ IH]; [done|].
  cbn. by rewrite Hk, IH.
Qed.

(** The errors of a model are those of its fields, in declaration
    order. *)
Lemma validate_fields_errors (fs : list Field) (src : Dict) :
  (validate_fields fs src).2 =
  mjoin ((fun f => match validate_field f src with
                   | inl _ => []
                   | inr e => e
                   end) <$> fs).
Proof.
  induction fs as [|f fs IH]; [done|].
  rewrite fmap_cons.
  change (mjoin (?x :: ?l)) with (x ++ mjoin l).
  rewrite <- IH. cbn [validate_fields].
  destruct (validate_fields fs src) as [vals errs].
  by destruct (validate_field f src).
Qed.

Lemma validate_inl (m : Model) (fa : bool) (v o : PyVal) :
  validate m fa v = inl o ->
  exists src vals,
    source fa v = Some src /\ o = VObj (m_name m) vals
    /\ validate_fields (m_fields m) src = (vals, []).
Proof.
  unfold validate. destruct (source fa v) as [src|]; [|done].
  destruct (validate_fields (m_fields m) src) as [vals [|e errs]] eqn:Hv; [|done].
  intros [= <-]. eauto.
Qed.

Lemma validate_inr (m : Model) (fa : bool) (src : Dict) (errs : list ErrorDetails) :
  validate m fa (VDict src) = inr errs ->
  errs = (validate_fields (m_fields m) src).2 /\ errs <> [].
Proof.
  unfold validate. cbn [source].
  destruct (validate_fields (m_fields m) src) as [vals [|e es]]; [done|].
  by intros [= <-].
Qed.

Lemma project_inr (t : ResponseType) : forall v e, project t v = inr e -> e <> [].
Proof.
  induction t as [m|t IH]; intros v e; cbn [project].
  - unfold validate. destruct (source true v) as [src|]; [|by intros [= <-]].
    destruct (validate_fields _ _) as [vals [|e0 errs]]; [done|]. by intros [= <-].
  - destruct v; try by intros [= <-]. apply collected_inr.
Qed.

(** What [project] returns holds the declared fields only. *)
Lemma project_only_declared (t : ResponseType) :
  forall v c, project t v = inl c -> only_declared t c.
Proof.
  induction t as [m|t IH]; intros v c; cbn [project only_declared].
  - destruct (validate m true v) as [o|] eqn:Hv; [|done].
    intros [= <-]. apply validate_inl in Hv as (src & vals & _ & -> & Hv).
    exists vals. split; [done|]. by eapply validate_fields_keys.
  - destruct v as [| | | | |l| |]; try done.
    destruct (collect (project t) 0 l) as [vals [|e errs]] eqn:Hc; [|done].
    cbn [collected]. intros [= <-]. exists vals. split; [done|].
    apply collect_errors_nil in Hc; [|apply project_inr].
    induction Hc as [|x x' l vals Hx _ IHc]; constructor; [|done].
    by eapply IH.
Qed.

Lemma get_not_key (d : Dict) (k : string) : k ∉ keys d -> get d k = None.
Proof.
  unfold keys. induction d as [|[k' v] d IH]; [done|]. cbn.
  intros [Hne Hd]%not_elem_of_cons. rewrite bool_decide_eq_false_2 by done.
  by apply IH.
Qed.

Lemma collect_all_inl (f : PyVal -> Result PyVal) (g : PyVal -> PyVal) (l : list PyVal) :
  Forall (fun x => f x = inl (g x)) l ->
  forall i, collect f i l = (g <$> l, []).
Proof.
  induction 1 as [|x l Hx _ IH]; intros i; [done|].
  cbn [collect]. by rewrite IH, Hx.
Qed.

End EngineFacts.

(** ** Snapshot 10: response models *)

Section Snap10Facts.
Import Pydantic FastAPI Snap10.
Context `{Parsers}.

(** The public shape of an internal item. *)
Lemma project_ItemPublic (i : ItemInternal) :
  project (RModel ItemPublic) (ItemInternal_object i)
  = inl (VDict [("name", VStr (name i)); ("price", VFloat (price i))]).
Proof. reflexivity. Qed.

Lemma project_UserOut (u : UserIn) :
  project (RModel UserOut) (UserIn_object u)
  = match validate_email (email u) with
    | Some e =>
        inl (VDict [("username", VStr (username u)); ("email", VStr e);
                    ("full_name", optional_str (full_name u))])
    | None =>
        inr [at_loc (LKey "email")
               (error "value_error" "value is not a valid email address"
                  (VStr (email u)))]
    end.
Proof.
  cbn. unfold validate_field, validate_value. cbn. decide_keys.
  destruct (validate_email (email u)); cbn; by destruct (full_name u).
Qed.

(** C1: a response produced under a response model holds the fields the
    model declares and no others, lists element by element; a key that
    the model does not declare cannot be read from the projected value.
    The item endpoints answer with name and price only: owner_id and
    secret_code of the internal item are gone. *)
Theorem response_model_hides_undeclared_fields :
  (forall (a : App) (route : Route) (t : ResponseType) (v : PyVal)
          (s : Z) (c : PyVal) (h : Headers),
      response_model route = Some t ->
      respond a route (Return v) = JSONResponse s c h ->
      only_declared t c)
  /\ (forall (m : Model) (v : PyVal) (attrs : Dict) (k : string),
        project (RModel m) v = inl (VDict attrs) ->
        k ∉ f_name <$> m_fields m ->
        get attrs k = None)
  /\ (forall (db : ItemsDB) (item_id : Z),
        respond app read_single_item_route (read_single_item item_id db)
        = match items_get db item_id with
          | Some i =>
              JSONResponse 200
                (VDict [("name", VStr (name i)); ("price", VFloat (price i))]) []
          | None =>
              JSONResponse 404 (VDict [("detail", VStr "Item not found")]) []
          end)
  /\ (forall db : ItemsDB,
        respond app read_items_route (read_items db)
        = JSONResponse 200
            (VList ((fun i => VDict [("name", VStr (name i));
                                     ("price", VFloat (price i))]) <$> db.*2))
            []).
Proof.
  split; [|split; [|split]].
  - intros a route t v s c h Hm. unfold respond, serialize_response.
    rewrite Hm. destruct (project t v) as [content|errs] eqn:Hp; [|done].
    destruct (is_body_allowed_for_status_code _); [|done].
    intros [= _ <- _]. by eapply project_only_declared.
  - intros m v attrs k Hp Hk. apply project_only_declared in Hp.
    destruct Hp as (attrs' & [= <-] & Hkeys).
    apply get_not_key. by rewrite Hkeys.
  - intros db item_id. unfold read_single_item.
    by destruct (items_get db item_id).
  - intros db. unfold respond, serialize_response, read_items.
    cbn [response_model read_items_route project].
    rewrite (collect_all_inl _
               (fun x => match project (RModel ItemPublic) x with
                         | inl c => c
                         | inr _ => VNone
                         end)).
    + cbn. do 2 f_equal. rewrite <- list_fmap_compose. by apply list_fmap_ext.
    + apply Forall_fmap, Forall_forall. by intros i _.
Qed.

(** C10: creating a user stores the whole input object, password
    included, under its username and touches no other entry; the object
    handed back to the framework still has the password, and the wire
    responses of the creation and of a later read hold username, email
    and full_name only. *)
Theorem create_user_keeps_password (user : UserIn) (db : UsersDB) :
  let db' := (create_user user db).1 in
  let public (s : Z) :=
    match validate_email (email user) with
    | Some e =>
        JSONResponse s
          (VDict [("username", VStr (username user)); ("email", VStr e);
                  ("full_name", optional_str (full_name user))]) []
    | None => internal_server_error
    end in
  db' !! username user = Some user
  /\ password <$> db' !! username user = Some (password user)
  /\ (forall k : string, k <> username user -> db' !! k = db !! k)
  /\ (create_user user db).2 = Return (UserIn_object user)
  /\ get (model_dump (UserIn_object user)) "password" = Some (VStr (password user))
  /\ respond app create_user_route (create_user user db).2 = public 201
  /\ respond app read_user_route (read_user (username user) db') = public 200.
Proof.
  cbn zeta. unfold create_user, read_user. cbn [fst snd].
  rewrite lookup_insert_eq. repeat split; try done.
  - intros k Hk. by rewrite lookup_insert_ne.
  - unfold respond, serialize_response. cbn [response_model create_user_route].
    rewrite project_UserOut. by destruct (validate_email (email user)).
  - unfold respond, serialize_response. cbn [response_model read_user_route].
    rewrite project_UserOut. by destruct (validate_email (email user)).
Qed.

End Snap10Facts.

Lemma response_model_hides_undeclared_fields_witness :
  FastAPI.respond (H := Sample.parsers) Snap10.app Snap10.read_single_item_route
    (Snap10.read_single_item 1 Snap10.fake_items_db)
  = FastAPI.JSONResponse 200
      (VDict [("name", VStr "keyboard"); ("price", VFloat 75)]) []
  /\ FastAPI.only_declared (FastAPI.RModel Snap10.ItemPublic)
       (VDict [("name", VStr "keyboard"); ("price", VFloat 75)])
  /\ Value.get [("name", VStr "keyboard"); ("price", VFloat 75)] "secret_code" = None.
Proof.
  pose proof (response_model_hides_undeclared_fields (H := Sample.parsers))
    as (Hshape & Hkey & Hitem & _).
  split; [exact (Hitem Snap10.fake_items_db 1)|].
  split.
  - exact (Hshape Snap10.app Snap10.read_single_item_route
             (FastAPI.RModel Snap10.ItemPublic)
             (Snap10.ItemInternal_object
                {| Snap10.name := "keyboard"; Snap10.price := 75;
                   Snap10.owner_id := 1; Snap10.secret_code := "abc" |})
             200 _ [] eq_refl eq_refl).
  - refine (Hkey Snap10.ItemPublic
              (Snap10.ItemInternal_object
                 {| Snap10.name := "keyboard"; Snap10.price := 75;
                    Snap10.owner_id := 1; Snap10.secret_code := "abc" |})
              _ "secret_code" eq_refl _).
    cbn. repeat (apply not_elem_of_cons; split; [discriminate|]).
    apply not_elem_of_nil.
Defined.

(** ** Snapshot 12: deleting and updating items *)

Section Snap12Facts.
Import Pydantic FastAPI Snap12.
Context `{Parsers}.

(** C6: deleting an id that is not in the store answers 404 and leaves
    the state as it was; deleting an id that is in the store answers 204
    with an empty body, removes that key and no other, and afterwards the
    same id is not found: its lookup is empty and deleting or updating it
    answers 404. *)
Theorem delete_item_spec (item_id : Z) (st : State) :
  match items_db st !! item_id with
  | None =>
      delete_items item_id st
      = (st, JSONResponse 404 (VDict [("detail", VStr "Item not found")]) [])
  | Some _ =>
      let st' := (delete_items item_id st).1 in
      let r := (delete_items item_id st).2 in
      r = PlainResponse 204 "" None []
      /\ status r = 204
      /\ empty_body r = true
      /\ items_db st' = delete item_id (items_db st)
      /\ items_db st' !! item_id = None
      /\ (forall k : Z, k <> item_id -> items_db st' !! k = items_db st !! k)
      /\ item_next_id st' = item_next_id st
      /\ delete_items item_id st'
         = (st', JSONResponse 404 (VDict [("detail", VStr "Item not found")]) [])
      /\ (forall item : PyVal,
            update_item item_id item st'
            = (st', Raise (HTTPException 404 "Item not found" [])))
  end.
Proof.
  unfold delete_items, delete_item, update_item.
  destruct (items_db st !! item_id) as [stored|] eqn:Hget; [|done].
  cbn. rewrite !lookup_delete_eq. repeat split; try done.
  intros k Hk. by rewrite lookup_delete_ne.
Qed.

(** What the framework makes of an exception object that a handler
    returns under the response model [Item]. *)
Lemma returned_exception_is_server_error (s : Z) (detail : string) :
  respond app update_item_route (Return (HTTPException_object s detail))
  = internal_server_error.
Proof. reflexivity. Qed.

(** C7, on the code: when the payload equals the stored value the store
    is left unchanged, but the handler returns the [HTTPException]
    object instead of raising it, so the response is the server error
    500 and not 304; when the payload differs the stored value is
    replaced. *)
Theorem update_item_same_payload
    (item_id : Z) (item : PyVal) (st : State) (stored : Dict) :
  items_db st !! item_id = Some stored ->
  (eqb (VDict stored) (VDict (model_dump item)) = true ->
     (update_item item_id item st).1 = st
     /\ (update_item item_id item st).2
        = Return (HTTPException_object 304 "Not Modified")
     /\ respond app update_item_route (update_item item_id item st).2
        = PlainResponse 500 "Internal Server Error" (Some "text/plain") [])
  /\ (eqb (VDict stored) (VDict (model_dump item)) = false ->
       items_db (update_item item_id item st).1
       = <[item_id := model_dump item]> (items_db st)
       /\ (update_item item_id item st).2 = Return (VDict (model_dump item))).
Proof.
  intros Hget. unfold update_item. rewrite Hget.
  split; intros ->; by cbn.
Qed.

End Snap12Facts.

Lemma update_item_same_payload_witness :
  let body := VDict [("name", VStr "Laptop"); ("price", VFloat 1200)] in
  Snap12.put_items (H := Sample.parsers) 1 body Snap12.initial
  = (Snap12.initial,
     FastAPI.PlainResponse 500 "Internal Server Error" (Some "text/plain") []).
Proof.
  cbv zeta.
  pose proof (update_item_same_payload (H := Sample.parsers) 1
                (VObj "Item" [("name", VStr "Laptop"); ("price", VFloat 1200)])
                Snap12.initial
                [("name", VStr "Laptop"); ("price", VFloat 1200)]
                eq_refl) as [Hsame _].
  destruct (Hsame eq_refl) as (Hst & _ & Hr).
  unfold Snap12.put_items, FastAPI.with_body.
  change (Pydantic.validate Snap12.Item false
            (VDict [("name", VStr "Laptop"); ("price", VFloat 1200)]))
    with (inl (B := list Pydantic.ErrorDetails)
              (VObj "Item" [("name", VStr "Laptop"); ("price", VFloat 1200)])).
  cbv iota beta.
  destruct (Snap12.update_item _ _ _) as [st' o]. cbn [fst snd] in *.
  by rewrite Hst, Hr.
Defined.

(** ** Snapshot 14: uploads *)

Section Snap14Facts.
Import FastAPI Snap14.
Variable FS : Type.
Variable save : UploadFile -> string -> FS -> FS * option string.

(** The loop appends one entry per file to the entries it started with,
    whatever [save] does. *)
Lemma process_entries (files : list UploadFile) :
  forall (saved_files : list PyVal) (fs : FS),
  exists news,
    (process FS save files saved_files fs).2 = saved_files ++ news
    /\ length news = length files
    /\ forall (i : nat) (file : UploadFile),
         files !! i = Some file ->
         let destination := destination_of (length saved_files + i) file in
         news !! i
         = Some (entry_of file destination
                   (save file destination
                      (fs_before FS save files (length saved_files) fs i)).2).
Proof.
  induction files as [|file files IH]; intros saved_files fs.
  - exists []. cbn. by rewrite app_nil_r.
  - cbn [process]. fold (destination_of (length saved_files) file).
    destruct (save file (destination_of (length saved_files) file) fs)
      as [fs' raised] eqn:Hsave.
    set (entry := entry_of file (destination_of (length saved_files) file) raised).
    assert (Hstep : (let (fs'0, o) := (fs', raised) in
                     match o with
                     | None =>
                         process FS save files
                           (saved_files ++
                              [VDict [("filename", optional_str (filename file));
                                      ("save_path",
                                       VStr (destination_of (length saved_files) file))]])
                           fs'0
                     | Some e =>
                         process FS save files
                           (saved_files ++
                              [VDict [("filename", optional_str (filename file));
                                      ("error", VStr e)]])
                           fs'0
                     end)
                    = process FS save files (saved_files ++ [entry]) fs')
      by (subst entry; by destruct raised).
    destruct (IH (saved_files ++ [entry]) fs') as (news & Heq & Hlen & Hent).
    exists (entry :: news). rewrite Hstep, Heq, <- app_assoc.
    split; [done|]. split; [cbn; by rewrite Hlen|].
    intros [|i] file' Hfile; cbn in Hfile.
    + injection Hfile as <-. cbn [fs_before]. rewrite Nat.add_0_r.
      cbn [lookup list_lookup]. subst entry. by rewrite Hsave.
    + specialize (Hent i file' Hfile). cbn zeta in Hent.
      rewrite length_app in Hent. cbn [length] in Hent.
      replace (length saved_files + 1 + i)%nat
        with (length saved_files + S i)%nat in Hent by lia.
      replace (length saved_files + 1)%nat with (S (length saved_files)) in Hent by lia.
      cbn [fs_before]. rewrite Hsave. cbn [fst]. exact Hent.
Qed.

(** C8: the answer to a multi-file upload lists exactly one entry per
    uploaded file, in order; the entry of a file whose save raised holds
    the error text, the entry of a file that was saved holds the path it
    was saved to, and a failure does not stop the files after it from
    being processed. *)
Theorem upload_multiple_files_entries (files : list UploadFile) (fs : FS) :
  exists (fs' : FS) (details : list PyVal),
    upload_multiple_files FS save files fs
    = (fs', Return (VDict [("message",
                            VStr (pretty (length files) +:+ " files processed."));
                           ("details", VList details)]))
    /\ length details = length files
    /\ forall (i : nat) (file : UploadFile),
         files !! i = Some file ->
         let destination := destination_of i file in
         let raised := (save file destination (fs_before FS save files 0 fs i)).2 in
         details !! i = Some (entry_of file destination raised)
         /\ (raised = None ->
             details !! i
             = Some (VDict [("filename", optional_str (filename file));
                            ("save_path", VStr destination)]))
         /\ (forall e : string, raised = Some e ->
             details !! i
             = Some (VDict [("filename", optional_str (filename file));
                            ("error", VStr e)])).
Proof.
  unfold upload_multiple_files.
  destruct (process_entries files [] fs) as (news & Heq & Hlen & Hent).
  destruct (process FS save files [] fs) as [fs' saved_files].
  cbn [snd app] in Heq. subst saved_files.
  exists fs', news. rewrite Hlen. split; [done|]. split; [done|].
  intros i file Hfile. specialize (Hent i file Hfile). cbn in Hent.
  cbn zeta. rewrite Hent. split; [done|].
  split; [by intros ->|by intros e ->].
Qed.

End Snap14Facts.

(** Three files, the second of which cannot be written: three entries,
    the second one with the error, the first and third saved. *)
Example upload_three_files_second_fails :
  Snap14.upload_multiple_files (list string) Sample.save_unless_full
    [Sample.upload "a.txt"; Sample.upload "dir/full.bin"; Sample.upload "c.txt"] []
  = (["./uploads/a.txt"; "./uploads/c.txt"],
     FastAPI.Return
       (VDict [("message", VStr "3 files processed.");
               ("details",
                VList [VDict [("filename", VStr "a.txt");
                              ("save_path", VStr "./uploads/a.txt")];
                       VDict [("filename", VStr "dir/full.bin");
                              ("error", VStr "No space left on device")];
                       VDict [("filename", VStr "c.txt");
                              ("save_path", VStr "./uploads/c.txt")]])])).
Proof. vm_compute. reflexivity. Qed.

(** ** Snapshots 06 and 09: validation of the item payload *)

Section Snap06Facts.
Import Pydantic FastAPI Snap06.
Context `{Parsers} `{Py.Unicode}.



(** What validation makes of the integer -5 given for [price]. *)
Lemma validate_price_negative (d : Dict) :
  get d "price" = Some (VInt (-5)) ->
  validate_field Item_price d = inr [price_error].
Proof.
  intros Hget. unfold validate_field. cbn [f_name Item_price]. by rewrite Hget.
Qed.

(** An error of one field is an error of the model. *)
Lemma validate_field_error (m : Model) (f : Field) (d : Dict)
    (errs : list ErrorDetails) (e : ErrorDetails) :
  f ∈ m_fields m ->
  validate_field f d = inr errs ->
  e ∈ errs ->
  exists all, validate m false (VDict d) = inr all /\ e ∈ all.
Proof.
  intros Hf Hv He.
  assert (Hin : e ∈ (validate_fields (m_fields m) d).2).
  { rewrite validate_fields_errors. apply list_elem_of_join.
    exists errs. split; [done|]. apply list_elem_of_fmap.
    exists f. by rewrite Hv. }
  unfold validate. cbn [source].
  destruct (validate_fields (m_fields m) d) as [vals [|e0 all]]; cbn in Hin.
  - by apply elem_of_nil in Hin.
  - eauto.
Qed.

(** A payload that fails validation never reaches the handler: whatever
    the handler, the state is untouched and the answer is the one of the
    handler registered for validation errors. *)
Lemma with_body_invalid {S : Type} (a : App) (m : Model) (route : Route)
    (endpoint : PyVal -> S -> S * Outcome) (body : PyVal) (st : S)
    (errs : list ErrorDetails) :
  validate m false body = inr errs ->
  with_body a m route endpoint body st
  = (st, translate a (RequestValidationError (at_loc (LKey "body") <$> errs))).
Proof. intros Hv. unfold with_body. by rewrite Hv. Qed.


End Snap06Facts.

Section Snap06Claims.
Import Pydantic FastAPI Snap06.
Context `{Parsers} `{Py.Unicode}.

(** C4, as the code has it: a payload whose price is -5 fails validation
    with an error entry for the price field and never reaches the
    handler, whatever the handler is; the entry's location is "body"
    followed by "price"; snapshot 06 answers with the framework's 422 and
    the body [{"detail": entries}], and under the handler of snapshot 09
    the answer is 400 with the body
    [{"message": ..., "details": entries}]. *)
Theorem negative_price_rejected (d : Dict) :
  get d "price" = Some (VInt (-5)) ->
  exists errs : list ErrorDetails,
    validate Item false (VDict d) = inr errs
    /\ price_error ∈ errs
    /\ error_json (at_loc (LKey "body") price_error)
       ∈ error_json <$> (at_loc (LKey "body") <$> errs)
    /\ loc_json <$> loc (at_loc (LKey "body") price_error)
       = [VStr "body"; VStr "price"]
    /\ forall (S : Type) (endpoint : PyVal -> S -> S * Outcome)
              (route : Route) (st : S),
         with_body Snap06.app Item route endpoint (VDict d) st
         = (st, JSONResponse 422
                  (VDict [("detail",
                           errors_json (at_loc (LKey "body") <$> errs))]) [])
         /\ with_body Snap09.app Item route endpoint (VDict d) st
            = (st, JSONResponse 400
                     (VDict [("message", VStr "Invalid input provided.");
                             ("details",
                              errors_json (at_loc (LKey "body") <$> errs))]) []).
Proof.
  intros Hget.
  destruct (validate_field_error Item Item_price d [price_error] price_error)
    as (errs & Hv & Hin).
  { cbn. set_solver. }
  { by apply validate_price_negative. }
  { set_solver. }
  exists errs. split; [done|]. split; [done|].
  split; [by do 2 apply list_elem_of_fmap_2|]. split; [done|].
  intros S endpoint route st.
  by rewrite !(with_body_invalid _ _ _ _ _ _ errs Hv).
Qed.


End Snap06Claims.

(** The claimed response (400, a bare sequence of entries, the path
    ["price"]) is not what either snapshot answers: snapshot 06 answers
    422, and under the handler of snapshot 09 the body is an object that
    wraps the entries. *)
Lemma negative_price_not_400_sequence :
  ~ SpecWords.validation_failure_400 [VStr "price"]
      (Snap06.post_items (H := Sample.parsers) (H0 := Sample.unicode) Sample.negative_price_payload ∅).2
  /\ ~ SpecWords.validation_failure_400 [VStr "price"]
        (FastAPI.with_body (H := Sample.parsers) Snap09.app (Snap06.Item (H := Sample.unicode))
           Snap06.create_item_route Snap06.create_item
           Sample.negative_price_payload ∅).2
  /\ FastAPI.status
       (Snap06.post_items (H := Sample.parsers) (H0 := Sample.unicode) Sample.negative_price_payload ∅).2
     = 422.
Proof.
  split; [|split].
  - intros [Hs _]. vm_compute in Hs. discriminate.
  - intros (_ & entries & entry & Hj & _). vm_compute in Hj. discriminate.
  - reflexivity.
Qed.

Lemma negative_price_rejected_witness :
  Value.get [("name", VStr "Gaming Keyboard"); ("price", VInt (-5))] "price"
  = Some (VInt (-5))
  /\ exists errs : list Pydantic.ErrorDetails,
       Pydantic.validate (H := Sample.parsers) (Snap06.Item (H := Sample.unicode)) false
         Sample.negative_price_payload = inr errs
       /\ Snap06.price_error ∈ errs.
Proof.
  split; [reflexivity|].
  destruct (negative_price_rejected (H := Sample.parsers) (H0 := Sample.unicode)
              [("name", VStr "Gaming Keyboard"); ("price", VInt (-5))] eq_refl)
    as (errs & Hv & Hin & _).
  exists errs. split; [exact Hv|exact Hin].
Defined.


(** A name with "admin" in mixed case is refused at the name field. *)
Example admin_name_refused :
  (Snap06.post_items (H := Sample.parsers) (H0 := Sample.unicode)
     (VDict [("name", VStr "Super ADMIN desk"); ("price", VInt 5)]) ∅)
  = (∅, FastAPI.JSONResponse 422
          (VDict [("detail",
                   VList [VDict [("type", VStr "value_error");
                                 ("loc", VList [VStr "body"; VStr "name"]);
                                 ("msg", VStr "Value error, Item name cannot contain 'admin'");
                                 ("input", VStr "Super ADMIN desk")]])]) []).
Proof. vm_compute. reflexivity. Qed.

(** * Further properties of the handlers *)

(** ** Fields of validated models *)

Section FieldFacts.
Import Pydantic FastAPI.
Context `{Parsers}.

Lemma coerce_KStr_inl (v v' : PyVal) :
  coerce KStr v = inl v' -> exists s, v = VStr s /\ v' = VStr s.
Proof. destruct v; cbn; try done. intros [= <-]. eauto. Qed.

Lemma coerce_KFloat_inl (v v' : PyVal) :
  coerce KFloat v = inl v' -> exists q, v' = VFloat q.
Proof.
  destruct v; cbn; try done; try (intros [= <-]; eauto).
  destruct (str_to_float s); [|done]. intros [= <-]. eauto.
Qed.

Lemma coerce_KInt_inl (v v' : PyVal) :
  coerce KInt v = inl v' -> exists z, v' = VInt z.
Proof.
  destruct v; cbn [coerce]; try done; try (intros [= <-]; eauto).
  - cbv zeta. destruct (negb _); [done|].
    destruct (_ && _); [|done]. intros [= <-]. eauto.
  - destruct (str_to_int s); [|done]. intros [= <-]. eauto.
Qed.

Lemma coerce_KOptional_inl (k : Kind) (v v' : PyVal) :
  coerce (KOptional k) v = inl v' -> v' = VNone \/ coerce k v = inl v'.
Proof. destruct v; cbn [coerce]; auto. intros [= <-]. auto. Qed.

(** A field that validated either took its default or went through
    coercion, the declared constraints and the custom validators. *)
Lemma validate_field_inl (f : Field) (d : Dict) (v' : PyVal) :
  validate_field f d = inl v' ->
  (get d (f_name f) = None /\ f_default f = Some v')
  \/ exists raw c,
       get d (f_name f) = Some raw
       /\ coerce (f_kind f) raw = inl c
       /\ check_all (f_constraints f) raw c = None
       /\ run_validators (f_validators f) raw c = inl v'.
Proof.
  unfold validate_field, validate_value.
  destruct (get d (f_name f)) as [raw|].
  - destruct (coerce (f_kind f) raw) as [c|] eqn:Hc; [|done].
    destruct (check_all (f_constraints f) raw c) eqn:Hk; [done|].
    destruct (run_validators (f_validators f) raw c) as [v''|] eqn:Hr; [|done].
    intros [= <-]. right. by exists raw, c.
  - destruct (f_default f); [|done]. intros [= <-]. by left.
Qed.

Lemma Qle_bool_inject_Z (a b : Z) : Qle_bool (inject_Z a) (inject_Z b) = (a <=? b).
Proof. unfold Qle_bool. cbn. by rewrite !Z.mul_1_r. Qed.

Lemma Qlt_bool_inject_Z (a b : Z) : Qlt_bool (inject_Z a) (inject_Z b) = (a <? b).
Proof.
  unfold Qlt_bool. rewrite Qle_bool_inject_Z.
  destruct (Z.leb_spec b a), (Z.ltb_spec a b); try done; lia.
Qed.

Lemma Qlt_bool_lt (x y : Q) : Qlt_bool x y = true -> (x < y)%Q.
Proof.
  unfold Qlt_bool. intros Hn%negb_true_iff.
  apply Qnot_le_lt. intros Hle%Qle_bool_iff. congruence.
Qed.

End FieldFacts.

(** ** Snapshot 06: what the store holds *)

Section Snap06Store.
Import Pydantic FastAPI Snap06.
Context `{Parsers} `{Py.Unicode}.

Lemma validate_Item_fields (d : Dict) (item : PyVal) :
  validate Item false (VDict d) = inl item ->
  exists v1 v2 v3 v4 v5,
    item = VObj "Item" [("name", v1); ("description", v2); ("price", v3);
                        ("tax", v4); ("tag", v5)]
    /\ validate_field Item_name d = inl v1
    /\ validate_field Item_description d = inl v2
    /\ validate_field Item_price d = inl v3
    /\ validate_field Item_tax d = inl v4
    /\ validate_field Item_tag d = inl v5.
Proof.
  intros (src & vals & [= <-] & -> & Hv)%validate_inl.
  apply validate_fields_ok in Hv. cbn [m_fields Item] in Hv.
  apply Forall2_cons_inv_l in Hv as ([k1 v1] & vals1 & [Hk1 H1] & Hv & ->).
  apply Forall2_cons_inv_l in Hv as ([k2 v2] & vals2 & [Hk2 H2] & Hv & ->).
  apply Forall2_cons_inv_l in Hv as ([k3 v3] & vals3 & [Hk3 H3] & Hv & ->).
  apply Forall2_cons_inv_l in Hv as ([k4 v4] & vals4 & [Hk4 H4] & Hv & ->).
  apply Forall2_cons_inv_l in Hv as ([k5 v5] & vals5 & [Hk5 H5] & Hv & ->).
  apply Forall2_nil_inv_l in Hv as ->.
  cbn in *. subst. by exists v1, v2, v3, v4, v5.
Qed.

(** The price of an item that passed validation is a number above 0 and
    at most 100000, and its tax is absent or a number above 0. *)
Theorem stored_price_invariant (d : Dict) (item : PyVal) :
  validate Item false (VDict d) = inl item ->
  exists (price : Q) (tax : PyVal),
    get (model_dump item) "price" = Some (VFloat price)
    /\ (0 < price)%Q /\ (price <= 100000)%Q
    /\ get (model_dump item) "tax" = Some tax
    /\ (tax = VNone \/ exists t : Q, tax = VFloat t /\ (0 < t)%Q).
Proof.
  intros Hv.
  destruct (validate_Item_fields d item Hv)
    as (v1 & v2 & v3 & v4 & v5 & -> & _ & _ & Hprice & Htax & _).
  apply validate_field_inl in Hprice as [[_ [=]]|(raw & c & _ & Hc & Hk & Hr)].
  cbn [f_kind f_constraints f_validators Item_price] in Hc, Hk, Hr.
  apply coerce_KFloat_inl in Hc as (q & ->).
  cbn [check_all check number b_val] in Hk.
  destruct (Qlt_bool 0 q) eqn:Hgt; [|done].
  destruct (Qle_bool q 100000) eqn:Hle; [|done].
  cbn [run_validators] in Hr. injection Hr as <-.
  exists q, v4. split; [done|].
  split; [by apply Qlt_bool_lt|]. split; [by apply Qle_bool_iff|].
  split; [done|].
  apply validate_field_inl in Htax as [[_ [= <-]]|(raw' & c' & _ & Hc' & Hk' & Hr')];
    [by left|].
  cbn [f_kind f_constraints f_validators Item_tax] in Hc', Hk', Hr'.
  cbn [run_validators] in Hr'. injection Hr' as <-.
  apply coerce_KOptional_inl in Hc' as [->|Hc']; [by left|].
  apply coerce_KFloat_inl in Hc' as (t & ->).
  cbn [check_all check number b_val] in Hk'.
  destruct (Qlt_bool 0 t) eqn:Hgt'; [|done].
  right. exists t. split; [done|]. by apply Qlt_bool_lt.
Qed.

(** As long as the ids in the store are exactly 1..n, which is how the
    store grows from the empty one, the id [len(items_db) + 1] is free:
    creating an item adds one entry, keeps every stored item and keeps the
    ids dense. *)
Theorem create_item_keeps_ids_dense (item : PyVal) (db : DB) :
  (forall k : Z, is_Some (db !! k) <-> 1 <= k <= Z.of_nat (size db)) ->
  let db' := (create_item item db).1 in
  db !! (Z.of_nat (size db) + 1) = None
  /\ size db' = S (size db)
  /\ (forall (k : Z) (v : Dict), db !! k = Some v -> db' !! k = Some v)
  /\ (forall k : Z, is_Some (db' !! k) <-> 1 <= k <= Z.of_nat (size db')).
Proof.
  intros Hdense db'. subst db'. cbn [create_item fst].
  assert (Hfree : db !! (Z.of_nat (size db) + 1) = None).
  { apply eq_None_not_Some. intros Hs%Hdense. lia. }
  split; [done|].
  rewrite (map_size_insert_None _ _ _ Hfree).
  split; [done|]. split.
  - intros k v Hk. rewrite lookup_insert_ne; [done|]. intros <-. congruence.
  - intros k. destruct (decide (k = Z.of_nat (size db) + 1)) as [->|Hne].
    + rewrite lookup_insert_eq. split; [lia|eauto].
    + rewrite lookup_insert_ne by done. rewrite Hdense. lia.
Qed.

End Snap06Store.

Lemma stored_price_invariant_witness :
  exists price : Q,
    Value.get
      [("name", VStr "Gaming Keyboard"); ("description", VNone);
       ("price", VFloat 5); ("tax", VNone); ("tag", VList [])] "price"
    = Some (VFloat price)
    /\ (0 < price)%Q /\ (price <= 100000)%Q.
Proof.
  destruct (stored_price_invariant (H := Sample.parsers) (H0 := Sample.unicode) Sample.keyboard_payload
              (VObj "Item" [("name", VStr "Gaming Keyboard"); ("description", VNone);
                            ("price", VFloat 5); ("tax", VNone); ("tag", VList [])])
              eq_refl)
    as (price & tax & Hprice & Hlo & Hhi & _).
  exists price. split; [exact Hprice|]. split; [exact Hlo|exact Hhi].
Defined.

Lemma create_item_keeps_ids_dense_witness :
  (∅ : gmap Z Dict) !! 1 = None
  /\ size (Snap06.create_item (VObj "Item" [("name", VStr "Desk")]) ∅).1 = 1%nat.
Proof.
  assert (Hdense : forall k : Z,
             is_Some ((∅ : gmap Z Dict) !! k) <-> 1 <= k <= Z.of_nat (size (∅ : gmap Z Dict))).
  { intros k. rewrite lookup_empty, map_size_empty. split.
    - intros [x Hx]. discriminate.
    - cbn. lia. }
  destruct (create_item_keeps_ids_dense (VObj "Item" [("name", VStr "Desk")]) ∅ Hdense)
    as (Hfree & Hsize & _).
  split; [exact Hfree|exact Hsize].
Defined.

(** ** Snapshot 09: validation threshold and the custom exception *)

Section Snap09Facts.
Import Pydantic FastAPI Snap09.
Context `{Parsers}.

(** An integer [value] is accepted exactly when it is above 10: 10 itself
    is refused.  An accepted value is echoed with status 200; a refused
    one is answered by the registered handler with status 400 and one
    entry located at the value in the body. *)
Theorem post_validate_threshold (d : Dict) (v : Z) :
  get d "value" = Some (VInt v) ->
  post_validate (VDict d)
  = if 10 <? v then
      JSONResponse 200
        (VDict [("message", VStr "Data is valid!"); ("received_value", VInt v)]) []
    else
      JSONResponse 400
        (VDict [("message", VStr "Invalid input provided.");
                ("details",
                 VList [VDict [("type", VStr "greater_than");
                               ("loc", VList [VStr "body"; VStr "value"]);
                               ("msg", VStr "Input should be greater than 10");
                               ("input", VInt v)]])]) [].
Proof.
  intros Hget. unfold post_validate, with_body, validate.
  cbn [source m_fields InputData validate_fields].
  unfold validate_field. cbn [f_name]. rewrite Hget.
  unfold validate_value. cbn [f_kind coerce f_constraints check_all check number b_val].
  change (Qlt_bool 10 (inject_Z v)) with (Qlt_bool (inject_Z 10) (inject_Z v)).
  rewrite Qlt_bool_inject_Z. by destruct (10 <? v).
Qed.

(** The unicorn endpoint answers 418 exactly for the name "sparkle", with
    the name and the request URL in the body; for "invalid" the unhandled
    [ValueError] becomes a 500 whose body does not carry its message; any
    other name is echoed with status 200. *)
Theorem get_unicorn_cases (request_url name : string) :
  (name = "sparkle" ->
     get_unicorn request_url name
     = JSONResponse 418
         (VDict [("error_type", VStr "Unicorn Error");
                 ("failed_item_name", VStr "sparkle");
                 ("message", VStr "Sparkle caused a rainbow overload!");
                 ("request_url", VStr request_url)]) [])
  /\ (name = "invalid" ->
       get_unicorn request_url name
       = PlainResponse 500 "Internal Server Error" (Some "text/plain") [])
  /\ (name <> "sparkle" -> name <> "invalid" ->
       get_unicorn request_url name
       = JSONResponse 200
           (VDict [("unicorn_name", VStr name); ("status", VStr "ok")]) [])
  /\ (status (get_unicorn request_url name) = 418 <-> name = "sparkle").
Proof.
  unfold get_unicorn, generate_unicorn_error.
  split; [by intros ->|]. split; [by intros ->|]. split.
  - intros H1 H2. by rewrite !bool_decide_eq_false_2.
  - case_bool_decide as H1; [done|]. case_bool_decide as H2; by cbn.
Qed.

End Snap09Facts.

Lemma post_validate_threshold_witness :
  Snap09.post_validate (H := Sample.parsers) (VDict [("value", VInt 10)])
  = FastAPI.JSONResponse 400
      (VDict [("message", VStr "Invalid input provided.");
              ("details",
               VList [VDict [("type", VStr "greater_than");
                             ("loc", VList [VStr "body"; VStr "value"]);
                             ("msg", VStr "Input should be greater than 10");
                             ("input", VInt 10)]])]) [].
Proof.
  exact (post_validate_threshold (H := Sample.parsers) [("value", VInt 10)] 10 eq_refl).
Defined.

(** ** Snapshot 10: users and items *)

Section Snap10More.
Import Pydantic FastAPI Snap10.
Context `{Parsers}.

(** After any sequence of creations, the store holds under a username the
    user created last with that username (an earlier one is replaced
    without an error), and what it held before when there is none; reading
    a username that was never created answers 404. *)
Theorem create_users_last_wins (users : list UserIn) (db : UsersDB) (n : string) :
  create_users users db !! n
  = match last (filter (fun u => username u = n) users) with
    | Some u => Some u
    | None => db !! n
    end
  /\ read_user n (create_users users ∅)
     = match last (filter (fun u => username u = n) users) with
       | Some u => Return (UserIn_object u)
       | None => Raise (HTTPException 404 "User not found" [])
       end.
Proof.
  assert (Hfold : forall db0 : UsersDB,
             create_users users db0 !! n
             = match last (filter (fun u => username u = n) users) with
               | Some u => Some u
               | None => db0 !! n
               end).
  { intros db0. unfold create_users.
    induction users as [|u users IH] using rev_ind; [done|].
    rewrite fold_left_app, filter_app. cbn [fold_left create_user fst].
    destruct (decide (username u = n)) as [Hu|Hu].
    - rewrite filter_cons_True, filter_nil by done.
      rewrite last_snoc, <- Hu. apply lookup_insert_eq.
    - rewrite filter_cons_False, filter_nil, app_nil_r by done.
      rewrite lookup_insert_ne by done. apply IH. }
  split; [apply Hfold|].
  unfold read_user. rewrite Hfold, lookup_empty.
  by destruct (last _).
Qed.

Lemma read_items_response (db : ItemsDB) :
  respond app read_items_route (read_items db)
  = JSONResponse 200
      (VList ((fun i => VDict [("name", VStr (name i));
                               ("price", VFloat (price i))]) <$> db.*2)) [].
Proof.
  unfold respond, serialize_response, read_items.
  cbn [response_model read_items_route project].
  rewrite (collect_all_inl _
             (fun x => match project (RModel ItemPublic) x with
                       | inl c => c
                       | inr _ => VNone
                       end)).
  - cbn. do 2 f_equal. rewrite <- list_fmap_compose. by apply list_fmap_ext.
  - apply Forall_fmap, Forall_forall. by intros i _.
Qed.

Lemma items_get_elem (db : ItemsDB) (item_id : Z) (i : ItemInternal) :
  items_get db item_id = Some i -> i ∈ db.*2.
Proof.
  induction db as [|[k j] db IH]; [done|]. cbn.
  case_bool_decide.
  - intros [= ->]. apply elem_of_cons. by left.
  - intros Hi. apply elem_of_cons. right. by apply IH.
Qed.

(** The two item endpoints agree: what the single-item endpoint answers
    for an id of the store is one of the elements of the list endpoint's
    answer, and that list has one element per stored item. *)
Theorem read_single_item_in_read_items (db : ItemsDB) (item_id : Z) (i : ItemInternal) :
  items_get db item_id = Some i ->
  exists (content : PyVal) (items : list PyVal),
    respond app read_single_item_route (read_single_item item_id db)
    = JSONResponse 200 content []
    /\ respond app read_items_route (read_items db) = JSONResponse 200 (VList items) []
    /\ content ∈ items
    /\ length items = length db.
Proof.
  intros Hget. eexists _, _. split.
  { unfold read_single_item. rewrite Hget. reflexivity. }
  split; [apply read_items_response|]. split.
  - apply list_elem_of_fmap. exists i. split; [done|]. by eapply items_get_elem.
  - by rewrite !length_fmap.
Qed.

End Snap10More.

Lemma read_single_item_in_read_items_witness :
  exists (content : PyVal) (items : list PyVal),
    FastAPI.respond (H := Sample.parsers) Snap10.app Snap10.read_items_route
      (Snap10.read_items Snap10.fake_items_db)
    = FastAPI.JSONResponse 200 (VList items) []
    /\ content ∈ items
    /\ length items = 3%nat.
Proof.
  destruct (read_single_item_in_read_items (H := Sample.parsers)
              Snap10.fake_items_db 2
              {| Snap10.name := "Mouse"; Snap10.price := 51 # 2;
                 Snap10.owner_id := 1; Snap10.secret_code := "def" |} eq_refl)
    as (content & items & _ & Hitems & Hin & Hlen).
  exists content, items. split; [exact Hitems|]. split; [exact Hin|exact Hlen].
Defined.

(** ** Snapshot 12: ids and repeated operations *)

Section Snap12More.
Import Pydantic FastAPI Snap12.
Context `{Parsers}.

(** A validated item of this snapshot is a name and a price. *)
Lemma validate_Item_shape (body item : PyVal) :
  validate Item false body = inl item ->
  exists (s : string) (q : Q),
    item = VObj "Item" [("name", VStr s); ("price", VFloat q)].
Proof.
  intros (src & vals & _ & -> & Hv)%validate_inl.
  apply validate_fields_ok in Hv. cbn [m_fields Item] in Hv.
  apply Forall2_cons_inv_l in Hv as ([k1 v1] & vals1 & [Hk1 H1] & Hv & ->).
  apply Forall2_cons_inv_l in Hv as ([k2 v2] & vals2 & [Hk2 H2] & Hv & ->).
  apply Forall2_nil_inv_l in Hv as ->. cbn in Hk1, Hk2, H1, H2. subst k1 k2.
  apply validate_field_inl in H1 as [[_ [=]]|(raw1 & c1 & _ & Hc1 & _ & Hr1)].
  apply validate_field_inl in H2 as [[_ [=]]|(raw2 & c2 & _ & Hc2 & _ & Hr2)].
  cbn in Hc1, Hc2, Hr1, Hr2. injection Hr1 as <-. injection Hr2 as <-.
  apply coerce_KStr_inl in Hc1 as (s & _ & ->).
  apply coerce_KFloat_inl in Hc2 as (q & ->).
  by exists s, q.
Qed.

Lemma ids_below_next_initial : ids_below_next initial.
Proof.
  intros k. cbn.
  destruct (decide (k = 2)) as [->|H2]; [done|].
  destruct (decide (k = 1)) as [->|H1]; [done|].
  rewrite !lookup_insert_ne, lookup_empty by done. by intros [x Hx].
Qed.



(** Creating an item and deleting it again gives back the store's
    contents and answers 204, but the id counter has moved on. *)
Theorem create_then_delete (item : PyVal) (st : State) :
  ids_below_next st ->
  let created := (create_item item st).1 in
  delete_items (item_next_id st) created
  = ({| items_db := items_db st; item_next_id := item_next_id st + 1 |},
     PlainResponse 204 "" None []).
Proof.
  intros Hinv created. subst created.
  assert (Hfree : items_db st !! item_next_id st = None).
  { apply eq_None_not_Some. intros Hs%Hinv. lia. }
  unfold delete_items, delete_item. cbn [create_item fst items_db item_next_id].
  rewrite lookup_insert_eq, delete_insert_eq, (delete_id _ _ Hfree).
  reflexivity.
Qed.

Lemma eqb_item_refl (s : string) (q : Q) :
  eqb (VDict [("name", VStr s); ("price", VFloat q)])
      (VDict [("name", VStr s); ("price", VFloat q)]) = true.
Proof.
  cbn. decide_keys. cbn.
  rewrite bool_decide_eq_true_2 by done.
  rewrite (proj2 (Qeq_bool_iff q q)) by reflexivity. done.
Qed.

(** Repeating a PUT changes nothing more: after an update with a valid
    item, a second update of the same id with the same item leaves the
    state exactly as the first one left it. *)
Theorem update_item_twice (item_id : Z) (body item : PyVal) (st : State) :
  validate Item false body = inl item ->
  let st1 := (update_item item_id item st).1 in
  (update_item item_id item st1).1 = st1.
Proof.
  intros Hv st1. subst st1.
  destruct (validate_Item_shape body item Hv) as (s & q & ->).
  set (item := VObj "Item" [("name", VStr s); ("price", VFloat q)]).
  destruct (items_db st !! item_id) as [stored|] eqn:Hget.
  - destruct (eqb (VDict stored) (VDict (model_dump item))) eqn:Heq.
    + assert (Hsame : (update_item item_id item st).1 = st)
        by (unfold update_item; by rewrite Hget, Heq).
      by rewrite !Hsame.
    + assert (Hnew : (update_item item_id item st).1
                     = {| items_db := <[item_id := model_dump item]> (items_db st);
                          item_next_id := item_next_id st |})
        by (unfold update_item; by rewrite Hget, Heq).
      rewrite Hnew. unfold update_item. cbn [items_db].
      rewrite lookup_insert_eq. subst item. cbn [model_dump].
      by rewrite eqb_item_refl.
  - assert (Hsame : (update_item item_id item st).1 = st)
      by (unfold update_item; by rewrite Hget).
    by rewrite !Hsame.
Qed.

End Snap12More.



Lemma create_then_delete_witness :
  Snap12.delete_items (H := Sample.parsers) 3
    (Snap12.create_item (VObj "Item" [("name", VStr "Desk"); ("price", VFloat 120)])
       Snap12.initial).1
  = ({| Snap12.items_db := Snap12.items_db Snap12.initial;
        Snap12.item_next_id := 4 |},
     FastAPI.PlainResponse 204 "" None []).
Proof.
  exact (create_then_delete (H := Sample.parsers)
           (VObj "Item" [("name", VStr "Desk"); ("price", VFloat 120)])
           Snap12.initial ids_below_next_initial).
Defined.

Lemma update_item_twice_witness :
  let item := VObj "Item" [("name", VStr "Laptop"); ("price", VFloat 999)] in
  let st1 := (Snap12.update_item 1 item Snap12.initial).1 in
  (Snap12.update_item 1 item st1).1 = st1.
Proof.
  exact (update_item_twice (H := Sample.parsers) 1
           (VDict [("name", VStr "Laptop"); ("price", VInt 999)])
           (VObj "Item" [("name", VStr "Laptop"); ("price", VFloat 999)])
           Snap12.initial eq_refl).
Defined.

(** ** Snapshot 14: where uploads are written *)

Section Snap14More.
Import FastAPI Snap14 posixpath.
Context `{Pydantic.Parsers}.
Variable FS : Type.
Variable save : UploadFile -> string -> FS -> FS * option string.

Lemma join_upload (b : string) :
  has_sep b = false -> join UPLOAD_DIR b = "./uploads/" +:+ b.
Proof. intros Hb. unfold join. by rewrite (no_sep_not_abs _ Hb). Qed.

Lemma has_sep_app (a b : string) : has_sep (a +:+ b) = has_sep a || has_sep b.
Proof.
  induction a as [|c a IH]; [done|].
  change (String c a +:+ b) with (String c (a +:+ b)).
  cbn [has_sep]. by rewrite IH, orb_assoc.
Qed.

Lemma pretty_N_go_no_sep (x : N) :
  forall s : string, has_sep (pretty_N_go x s) = has_sep s.
Proof.
  induction (N.lt_wf_0 x) as [x _ IH]. intros s.
  assert (x = 0 \/ 0 < x)%N as [->|Hpos] by lia.
  - by rewrite pretty_N_go_0.
  - rewrite pretty_N_go_step by done.
    rewrite IH by (by apply N.div_lt). cbn [has_sep].
    unfold pretty_N_char. by repeat case_match.
Qed.

Lemma pretty_nat_no_sep (n : nat) : has_sep (pretty n) = false.
Proof.
  unfold pretty, pretty_nat, pretty, pretty_N.
  case_decide; [done|]. by rewrite pretty_N_go_no_sep.
Qed.

Lemma append_inj_r (a b c : string) : a +:+ b = a +:+ c -> b = c.
Proof. induction a as [|x a IH]; cbn; [done|]. intros [= Heq]. by apply IH. Qed.

(** Whatever file name the client sends, the single-file upload writes
    directly under the upload directory: the destination is "./uploads/"
    followed by a name without a separator.  A failure of the save is
    answered with 500 and the error text, a success with the save path. *)
Theorem upload_single_file_destination (file : UploadFile) (fs : FS) :
  let b := basename (Py.or_default (filename file) "upload_file") in
  let destination := "./uploads/" +:+ b in
  has_sep b = false
  /\ upload_single_file FS save file fs
     = match save file destination fs with
       | (fs', Some e) =>
           (fs', Raise (HTTPException 500 ("Could not dave file: " +:+ e) []))
       | (fs', None) =>
           (fs', Return (VDict [("filename", optional_str (filename file));
                                ("content_type", optional_str (content_type file));
                                ("save_path", VStr destination)]))
       end.
Proof.
  cbn zeta. split; [apply basename_no_sep|].
  unfold upload_single_file. by rewrite join_upload by apply basename_no_sep.
Qed.

(** In a batch, a file that comes without a name is saved as
    "./uploads/uploaded_file_<position>", so two nameless files at
    different positions never share a destination. *)
Theorem nameless_uploads_distinct (i j : nat) (f g : UploadFile) :
  (filename f = None \/ filename f = Some "") ->
  (filename g = None \/ filename g = Some "") ->
  i <> j ->
  destination_of i f = "./uploads/uploaded_file_" +:+ pretty i
  /\ destination_of i f <> destination_of j g.
Proof.
  intros Hf Hg Hij.
  assert (Hdest : forall (n : nat) (u : UploadFile),
             (filename u = None \/ filename u = Some "") ->
             destination_of n u = "./uploads/uploaded_file_" +:+ pretty n).
  { intros n u Hu. unfold destination_of.
    assert (Hor : Py.or_default (filename u) ("uploaded_file_" +:+ pretty n)
                  = "uploaded_file_" +:+ pretty n) by (by destruct Hu as [->| ->]).
    assert (Hsep : has_sep ("uploaded_file_" +:+ pretty n) = false)
      by (by rewrite has_sep_app, pretty_nat_no_sep).
    by rewrite Hor, (basename_id _ Hsep), (join_upload _ Hsep). }
  rewrite !Hdest by done. split; [done|].
  intros Heq%append_inj_r. by apply (inj pretty) in Heq.
Qed.

End Snap14More.

Lemma nameless_uploads_distinct_witness :
  Snap14.destination_of 0
    {| Snap14.filename := None; Snap14.content_type := None; Snap14.data := "a" |}
  = "./uploads/uploaded_file_0"
  /\ Snap14.destination_of 0
       {| Snap14.filename := None; Snap14.content_type := None; Snap14.data := "a" |}
     <> Snap14.destination_of 1
          {| Snap14.filename := Some ""; Snap14.content_type := None; Snap14.data := "b" |}.
Proof.
  exact (nameless_uploads_distinct 0 1
           {| Snap14.filename := None; Snap14.content_type := None; Snap14.data := "a" |}
           {| Snap14.filename := Some ""; Snap14.content_type := None; Snap14.data := "b" |}
           (or_introl eq_refl) (or_intror eq_refl) (O_S 0)).
Defined.

(** ** Snapshot 05: optional parts of the answers *)

Section Snap05Facts.
Import Pydantic FastAPI Snap05.
Context `{Parsers} `{Floats}.




End Snap05Facts.


